(** * The cart and session state manager of the storefront mock-up

    A shallow embedding of [main.js]: the persisted cart (localStorage), the
    persisted session (sessionStorage), the in-memory user directory
    ([sessionUsers]) and the operations that read and write them.

    - A computation is a function from the state to a completion (a value
      returned or an exception thrown) and the state it leaves.
    - Handlers run to completion one after the other (the runtime does not
      pre-empt a handler), so an [async] function is embedded as the
      sequential computation obtained by resolving each [await] in place.
    - [alert], [console.error], [fetch] and what the view synchronizers write
      to the page are kept as a trace of events; the markup of the product
      pages, [getCartTotal] and [console.log] are left out.
    - [sessionUsers] is a variable of the script: it lives as long as the
      page does, and is empty again on the next page ([page_load]), while
      what localStorage and sessionStorage hold stays.
    - Ids and quantities are JavaScript numbers: integers as a double holds
      them, [NaN] and the infinities.  A stored text is the JSON of a value
      of its type, or a text that is not JSON. *)

From Stdlib Require Import ZArith QArith String Ascii List Lia.
From Stdlib Require Import DecimalString DecimalPos DecimalZ.
From stdpp Require Import base option list strings.

Local Open Scope string_scope.
Local Open Scope list_scope.
Local Open Scope Z_scope.

(** ** The slice of the JavaScript runtime the program relies on *)

Module JS.

(** A string is the sequence of the bytes of its UTF-8 text. *)

(** Numbers as this program meets them.  Ids and quantities are integers;
    the script adds quantities, adds 1 to the greatest id and reads numbers
    from text with [parseInt]: all of this keeps to the integers, [NaN] and
    the two infinities.  [Int z] is the double whose value is the integer
    [z]: every integer up to 2^53 in magnitude is one, and beyond that
    [of_Z] gives the nearest one.  The two zeros are one value here: [===],
    [<=], [>], [String] and [JSON.stringify] do not tell them apart.  [Null]
    is what [JSON.stringify] writes for [NaN] and for an infinity, and what
    [JSON.parse] reads back.  A number with a fraction has no counterpart:
    the script computes none, and a fixture, a stored text or a caller that
    holds one is outside of what is modelled. *)
Inductive number := Int (z : Z) | NaN | Null | Infinity (negative : bool).

(** The double nearest to an integer [a] > 2^53: its 53 leading bits, rounded
    to nearest, a tie going to the even significand. *)
Definition nearest (a : Z) : Z :=
  let e := Z.log2 a - 52 in
  let m := Z.shiftr a e in
  let rest := Z.land a (Z.ones e) in
  let half := Z.shiftl 1 (e - 1) in
  let m' := if ((half <? rest) || ((rest =? half) && Z.odd m))%bool then m + 1 else m in
  Z.shiftl m' e.

(** An integer as a double holds it: itself up to 2^53 in magnitude. *)
Definition round (z : Z) : Z :=
  if Z.abs z <=? 2 ^ 53 then z else Z.sgn z * nearest (Z.abs z).

(** The Number value of an integer: from 2^1024 on, an infinity. *)
Definition of_Z (z : Z) : number :=
  let v := round z in
  if 2 ^ 1024 <=? Z.abs v then Infinity (z <? 0) else Int v.

(** ToNumber: null counts as 0. *)
Definition ToNumber (v : number) : number :=
  match v with
  | Null => Int 0
  | _ => v
  end.

(** [a + b] on these values. *)
Definition add (a b : number) : number :=
  match ToNumber a, ToNumber b with
  | Int x, Int y => of_Z (x + y)
  | Infinity n, Int _ | Int _, Infinity n => Infinity n
  | Infinity n, Infinity m => if Bool.eqb n m then Infinity n else NaN
  | _, _ => NaN
  end.

(** [a <= b] and [a > b]: every comparison with NaN is false. *)
Definition le (a b : number) : bool :=
  match ToNumber a, ToNumber b with
  | Int x, Int y => x <=? y
  | Infinity true, (Int _ | Infinity _) => true
  | (Int _ | Infinity false), Infinity false => true
  | _, _ => false
  end.

Definition gt (a b : number) : bool :=
  match ToNumber a, ToNumber b with
  | Int x, Int y => y <? x
  | Infinity false, (Int _ | Infinity true) => true
  | Int _, Infinity true => true
  | _, _ => false
  end.

(** [a === b]: no conversion, and NaN differs from everything. *)
Definition strict_eq (a b : number) : bool :=
  match a, b with
  | Int x, Int y => x =? y
  | Null, Null => true
  | Infinity n, Infinity m => Bool.eqb n m
  | _, _ => false
  end.

(** What [JSON.parse (JSON.stringify n)] is. *)
Definition JSON_number (n : number) : number :=
  match n with
  | NaN | Infinity _ => Null
  | _ => n
  end.

(** *** parseInt(text, 10) *)

(** The white space [parseInt] skips: TAB, LF, VT, FF, CR and SPACE, which
    are one byte each, ... *)
Definition is_white_space (c : ascii) : bool :=
  let n := nat_of_ascii c in
  (Nat.eqb n 32 || (Nat.leb 9 n && Nat.leb n 13))%bool.

(** ... U+00A0 in two bytes, ... *)
Definition is_white_space2 (c1 c2 : ascii) : bool :=
  (Nat.eqb (nat_of_ascii c1) 194 && Nat.eqb (nat_of_ascii c2) 160)%bool.

(** ... and U+1680, U+2000 to U+200A, U+2028, U+2029, U+202F, U+205F,
    U+3000 and U+FEFF in three. *)
Definition is_white_space3 (c1 c2 c3 : ascii) : bool :=
  let n1 := nat_of_ascii c1 in
  let n2 := nat_of_ascii c2 in
  let n3 := nat_of_ascii c3 in
  ((Nat.eqb n1 225 && Nat.eqb n2 154 && Nat.eqb n3 128)
   || (Nat.eqb n1 226 && Nat.eqb n2 128
       && ((Nat.leb 128 n3 && Nat.leb n3 138)
           || Nat.eqb n3 168 || Nat.eqb n3 169 || Nat.eqb n3 175))
   || (Nat.eqb n1 226 && Nat.eqb n2 129 && Nat.eqb n3 159)
   || (Nat.eqb n1 227 && Nat.eqb n2 128 && Nat.eqb n3 128)
   || (Nat.eqb n1 239 && Nat.eqb n2 187 && Nat.eqb n3 191))%bool.

Fixpoint skip_white_space (s : string) : string :=
  match s with
  | String c1 r1 =>
      if is_white_space c1 then skip_white_space r1
      else
        match r1 with
        | String c2 r2 =>
            if is_white_space2 c1 c2 then skip_white_space r2
            else
              match r2 with
              | String c3 r3 =>
                  if is_white_space3 c1 c2 c3 then skip_white_space r3 else s
              | EmptyString => s
              end
        | EmptyString => s
        end
  | EmptyString => s
  end.

Definition digit (c : ascii) : option Z :=
  let n := Z.of_nat (nat_of_ascii c) in
  if ((48 <=? n) && (n <=? 57))%bool then Some (n - 48) else None.

(** The longest prefix of decimal digits, read as a number; [acc] is [None]
    until a first digit has been seen. *)
Fixpoint digits (s : string) (acc : option Z) : option Z :=
  match s with
  | String c r =>
      match digit c with
      | Some d => digits r (Some (10 * default 0 acc + d))
      | None => acc
      end
  | EmptyString => acc
  end.

(** The result is the Number value of the integer read.  (Past the 20th
    significant digit an implementation is allowed to read a digit as 0;
    here every digit counts.) *)
Definition parseInt_string (s : string) : number :=
  let s := skip_white_space s in
  let '(negative, s) :=
    match s with
    | String "-" r => (true, r)
    | String "+" r => (false, r)
    | _ => (false, s)
    end in
  match digits s None with
  | Some n => of_Z (if negative then - n else n)
  | None => NaN
  end.

(** A product id reaches the program as a number (from the fixture) or as
    text (from the URL or a data attribute): [@param {string|number}]. *)
Inductive id_arg := IdNumber (n : Z) | IdString (s : string).

(** [parseInt] first turns a number into its decimal text, which it then
    reads back (integers below 10^21 in magnitude). *)
Definition parseInt (v : id_arg) : number :=
  match v with
  | IdNumber n => Int n
  | IdString s => parseInt_string s
  end.

(** [!s] on a string: only the empty string is falsy. *)
Definition falsy (s : string) : bool :=
  match s with
  | EmptyString => true
  | String _ _ => false
  end.

(** [array.findIndex(callback)]: [None] stands for -1. *)
Fixpoint findIndex {A : Type} (callback : A -> bool) (array : list A) : option nat :=
  match array with
  | [] => None
  | x :: rest =>
      if callback x then Some O else S <$> findIndex callback rest
  end.

(** [array.splice(start, 1)], for the array that is left. *)
Fixpoint splice1 {A : Type} (start : nat) (array : list A) : list A :=
  match array, start with
  | [], _ => []
  | _ :: rest, O => rest
  | x :: rest, S n => x :: splice1 n rest
  end.

(** [array[index] = f(array[index])] for an index inside the array. *)
Fixpoint update {A : Type} (index : nat) (f : A -> A) (array : list A) : list A :=
  match array, index with
  | [], _ => []
  | x :: rest, O => f x :: rest
  | x :: rest, S n => x :: update n f rest
  end.

(** Exceptions the program can meet. *)
Inductive exn := SyntaxError.

(** *** The texts JSON.parse accepts *)

(** The JSON grammar, as a recogniser: each function takes the text at the
    start of what it reads and gives the text that follows it, [None] when
    the text does not start with one. *)

(** White space between tokens: TAB, LF, CR and SPACE. *)
Definition is_JSON_white_space (c : ascii) : bool :=
  let n := nat_of_ascii c in
  (Nat.eqb n 9 || Nat.eqb n 10 || Nat.eqb n 13 || Nat.eqb n 32)%bool.

Fixpoint skip_JSON_white_space (s : string) : string :=
  match s with
  | String c r => if is_JSON_white_space c then skip_JSON_white_space r else s
  | EmptyString => s
  end.

Definition is_digit (c : ascii) : bool :=
  let n := nat_of_ascii c in (Nat.leb 48 n && Nat.leb n 57)%bool.

Definition is_hex_digit (c : ascii) : bool :=
  let n := nat_of_ascii c in
  (is_digit c || (Nat.leb 65 n && Nat.leb n 70) || (Nat.leb 97 n && Nat.leb n 102))%bool.

(** The word [p] at the start of [s]. *)
Fixpoint strip (p s : string) : option string :=
  match p, s with
  | EmptyString, _ => Some s
  | String a p', String b s' => if Ascii.eqb a b then strip p' s' else None
  | String _ _, EmptyString => None
  end.

Definition quotation_mark : ascii := ascii_of_nat 34.

Definition reverse_solidus : ascii := ascii_of_nat 92.

(** A string, after its opening quotation mark: any byte from 32 on but the
    quotation mark and the reverse solidus, or a reverse solidus and a
    quotation mark, a reverse solidus, a solidus, one of [b f n r t], or [u]
    and four hexadecimal digits; then the closing quotation mark. *)
Fixpoint string_literal (s : string) : option string :=
  match s with
  | EmptyString => None
  | String c r =>
      if Ascii.eqb c quotation_mark then Some r
      else if Ascii.eqb c reverse_solidus then
        match r with
        | String e r' =>
            if existsb (Ascii.eqb e)
                 [quotation_mark; reverse_solidus; "/"; "b"; "f"; "n"; "r"; "t"]%char
            then string_literal r'
            else if Ascii.eqb e "u" then
              match r' with
              | String h1 (String h2 (String h3 (String h4 r''))) =>
                  if (is_hex_digit h1 && is_hex_digit h2 && is_hex_digit h3
                      && is_hex_digit h4)%bool
                  then string_literal r'' else None
              | _ => None
              end
            else None
        | EmptyString => None
        end
      else if Nat.ltb (nat_of_ascii c) 32 then None
      else string_literal r
  end.

Fixpoint skip_digits (s : string) : string :=
  match s with
  | String c r => if is_digit c then skip_digits r else s
  | EmptyString => s
  end.

(** One digit at least. *)
Definition digits1 (s : string) : option string :=
  match s with
  | String c r => if is_digit c then Some (skip_digits r) else None
  | EmptyString => None
  end.

(** An exponent, if there is one: [e] or [E], a sign if any, digits. *)
Definition exponent_part (s : string) : option string :=
  match s with
  | String c r =>
      if (Ascii.eqb c "e" || Ascii.eqb c "E")%bool then
        match r with
        | String sign r' =>
            if (Ascii.eqb sign "+" || Ascii.eqb sign "-")%bool then digits1 r' else digits1 r
        | EmptyString => None
        end
      else Some s
  | EmptyString => Some s
  end.

(** A fraction, if there is one: a point and digits; then the exponent. *)
Definition fraction_part (s : string) : option string :=
  match s with
  | String c r =>
      if Ascii.eqb c "." then
        match digits1 r with
        | Some r' => exponent_part r'
        | None => None
        end
      else exponent_part s
  | EmptyString => Some s
  end.

(** A number: a minus sign if any, then 0 or a digit that is not 0 and
    further digits, then fraction and exponent. *)
Definition number_literal (s : string) : option string :=
  let s := match s with
           | String c r => if Ascii.eqb c "-" then r else s
           | EmptyString => s
           end in
  match s with
  | String c r =>
      if Ascii.eqb c "0" then fraction_part r
      else if is_digit c then fraction_part (skip_digits r)
      else None
  | EmptyString => None
  end.

(** A value; the elements of an array after its bracket, up to the closing
    one; the members of an object likewise.  [fuel] bounds the depth of the
    calls, two for each byte being enough. *)
Fixpoint JSON_value (fuel : nat) (s : string) {struct fuel} : option string :=
  match fuel with
  | O => None
  | S fuel =>
      match s with
      | String c r =>
          if Ascii.eqb c "[" then
            match skip_JSON_white_space r with
            | String c' r' =>
                if Ascii.eqb c' "]" then Some r' else JSON_elements fuel (String c' r')
            | EmptyString => None
            end
          else if Ascii.eqb c "{" then
            match skip_JSON_white_space r with
            | String c' r' =>
                if Ascii.eqb c' "}" then Some r' else JSON_members fuel (String c' r')
            | EmptyString => None
            end
          else if Ascii.eqb c quotation_mark then string_literal r
          else if Ascii.eqb c "n" then strip "ull" r
          else if Ascii.eqb c "t" then strip "rue" r
          else if Ascii.eqb c "f" then strip "alse" r
          else number_literal s
      | EmptyString => None
      end
  end
with JSON_elements (fuel : nat) (s : string) {struct fuel} : option string :=
  match fuel with
  | O => None
  | S fuel =>
      match JSON_value fuel s with
      | Some r =>
          match skip_JSON_white_space r with
          | String c r' =>
              if Ascii.eqb c "," then JSON_elements fuel (skip_JSON_white_space r')
              else if Ascii.eqb c "]" then Some r'
              else None
          | EmptyString => None
          end
      | None => None
      end
  end
with JSON_members (fuel : nat) (s : string) {struct fuel} : option string :=
  match fuel with
  | O => None
  | S fuel =>
      match s with
      | String q r =>
          if Ascii.eqb q quotation_mark then
            match string_literal r with
            | Some r1 =>
                match skip_JSON_white_space r1 with
                | String c r2 =>
                    if Ascii.eqb c ":" then
                      match JSON_value fuel (skip_JSON_white_space r2) with
                      | Some r3 =>
                          match skip_JSON_white_space r3 with
                          | String c' r4 =>
                              if Ascii.eqb c' "," then
                                JSON_members fuel (skip_JSON_white_space r4)
                              else if Ascii.eqb c' "}" then Some r4
                              else None
                          | EmptyString => None
                          end
                      | None => None
                      end
                    else None
                | EmptyString => None
                end
            | None => None
            end
          else None
      | EmptyString => None
      end
  end.

(** The text is JSON: one value, white space around it at most. *)
Definition is_JSON (s : string) : bool :=
  match JSON_value (2 * String.length s + 2) (skip_JSON_white_space s) with
  | Some r =>
      match skip_JSON_white_space r with
      | EmptyString => true
      | String _ _ => false
      end
  | None => false
  end.

(** What a Web Storage slot holds under one key.  The program writes
    [JSON.stringify] of a value and reads through [JSON.parse], so a text is
    kept as the value it is the JSON text of; [Raw] is a text that is not
    JSON, the empty text among them: [JSON.parse] raises SyntaxError on it.
    A text that is JSON, but of no value of the type, is outside of what is
    modelled. *)
Inductive text (A : Type) :=
| JSON_stringify (a : A)
| Raw (s : string) (not_JSON : is_JSON s = false).
Arguments JSON_stringify {A} a.
Arguments Raw {A} s not_JSON.

(** Truthiness of a stored text: JSON.stringify of an object or an array is
    never empty. *)
Definition truthy {A : Type} (t : text A) : bool :=
  match t with
  | JSON_stringify _ => true
  | Raw s _ => negb (falsy s)
  end.

End JS.

Arguments JS.nearest : simpl never.
Arguments JS.round : simpl never.
Arguments JS.of_Z : simpl never.
Arguments JS.is_JSON : simpl never.

(** ** Data model *)

Module Product.
Record t := {
  id : Z;
  name : string;
  price : Q;
  image_url : string;
  description : string;
  sizes : list string;
  category : string }.
End Product.

Module User.
Record t := {
  id : Z;
  name : string;
  email : string;
  password : string;
  address : string }.
End User.

Module CartLine.
Record t := {
  id : Z;
  name : string;
  price : Q;
  image_url : string;
  quantity : JS.number;
  size : string }.

(** [item.quantity = q] *)
Definition set_quantity (q : JS.number) (item : t) : t :=
  {| id := id item; name := name item; price := price item;
     image_url := image_url item; quantity := q; size := size item |}.

(** The pair a cart holds at most one line for. *)
Definition key (item : t) : Z * string := (id item, size item).
End CartLine.

(** A cart is the array of its lines, in insertion order. *)
Abbreviation Cart := (list CartLine.t).

(** What [JSON.parse] reads back from the text [JSON.stringify] wrote for a
    cart: the same lines, a quantity that is NaN or an infinity become null. *)
Definition JSON_reparse (cart : Cart) : Cart :=
  map (fun item => CartLine.set_quantity (JS.JSON_number (CartLine.quantity item)) item) cart.

(** ** The state the program runs in *)

(** What the program shows or asks of its surroundings.  [console.log] output
    is left out. *)
Inductive event :=
| Fetch (url : string)
| Alert (msg : string)
| ConsoleError (msg : string)
| CartIconCount (itemCount : JS.number)   (* textContent of #cart-item-count *)
| UserNav (loggedIn : bool)               (* which navigation links are shown *)
| CartTable (cart : Cart)                 (* rows and total of the cart page *)
| Location (href : string).               (* window.location.href = href *)

Record State := {
  (** the static documents [data/products.json] and [data/users.json];
      [None] when fetching or decoding one fails *)
  products_json : option (list Product.t);
  users_json : option (list User.t);
  (** ids of the elements of the loaded page *)
  document : list string;
  (** localStorage under 'shoppingCart', sessionStorage under 'currentUser';
      [None] when [getItem] returns null *)
  localStorage : option (JS.text Cart);
  sessionStorage : option (JS.text User.t);
  (** [let sessionUsers = []] *)
  sessionUsers : list User.t;
  (** most recent event first *)
  trace : list event }.

Definition set_localStorage (v : option (JS.text Cart)) (s : State) : State :=
  {| products_json := products_json s; users_json := users_json s;
     document := document s; localStorage := v;
     sessionStorage := sessionStorage s; sessionUsers := sessionUsers s;
     trace := trace s |}.

Definition set_sessionStorage (v : option (JS.text User.t)) (s : State) : State :=
  {| products_json := products_json s; users_json := users_json s;
     document := document s; localStorage := localStorage s;
     sessionStorage := v; sessionUsers := sessionUsers s;
     trace := trace s |}.

Definition set_sessionUsers (v : list User.t) (s : State) : State :=
  {| products_json := products_json s; users_json := users_json s;
     document := document s; localStorage := localStorage s;
     sessionStorage := sessionStorage s; sessionUsers := v;
     trace := trace s |}.

Definition set_trace (v : list event) (s : State) : State :=
  {| products_json := products_json s; users_json := users_json s;
     document := document s; localStorage := localStorage s;
     sessionStorage := sessionStorage s; sessionUsers := sessionUsers s;
     trace := v |}.

(** A computation either returns or throws, and leaves a state behind. *)
Inductive completion (A : Type) :=
| Return (a : A)
| Throw (e : JS.exn).
Arguments Return {A} a.
Arguments Throw {A} e.

Definition Js (A : Type) : Type := State -> completion A * State.

Definition ret {A : Type} (a : A) : Js A := fun s => (Return a, s).

Definition throw {A : Type} (e : JS.exn) : Js A := fun s => (Throw e, s).

Definition bind {A B : Type} (m : Js A) (k : A -> Js B) : Js B :=
  fun s =>
    match m s with
    | (Return a, s') => k a s'
    | (Throw e, s') => (Throw e, s')
    end.

Definition gets {A : Type} (f : State -> A) : Js A := fun s => (Return (f s), s).

Definition modify (f : State -> State) : Js unit := fun s => (Return tt, f s).

Declare Scope js_scope.
Delimit Scope js_scope with js.
Notation "'let*' x ':=' m 'in' k" := (bind m (fun x => k))
  (at level 10, x name, m at level 100, k at level 200) : js_scope.
Notation "m ';;;' k" := (bind m (fun _ => k))
  (at level 100, k at level 200, right associativity) : js_scope.
Local Open Scope js_scope.

Definition emit (e : event) : Js unit := modify (fun s => set_trace (e :: trace s) s).

Definition alert (msg : string) : Js unit := emit (Alert msg).

Definition console_error (msg : string) : Js unit := emit (ConsoleError msg).

(** [document.getElementById(id)], as the truth value the program tests. *)
Definition getElementById (id : string) : Js bool :=
  gets (fun s => existsb (String.eqb id) (document s)).

(** [JSON.parse] of a stored text. *)
Definition JSON_parse {A : Type} (reparse : A -> A) (t : JS.text A) : Js A :=
  match t with
  | JS.JSON_stringify a => ret (reparse a)
  | JS.Raw _ _ => throw JS.SyntaxError
  end.

(** ** Product data *)

Definition fetchProducts : Js (list Product.t) :=
  emit (Fetch "data/products.json") ;;;
  let* response := gets products_json in
  match response with
  | Some products => ret products
  | None => console_error "Could not fetch products:" ;;; ret []
  end.

Definition fetchProductById (id : JS.id_arg) : Js (option Product.t) :=
  let* products := fetchProducts in
  let productId := JS.parseInt id in
  ret (find (fun p => JS.strict_eq (JS.Int (Product.id p)) productId) products).

(** ** User authentication *)

Definition fetchUsers : Js (list User.t) :=
  let* overlay := gets sessionUsers in
  if (0 <? Z.of_nat (length overlay)) then ret overlay
  else
    emit (Fetch "data/users.json") ;;;
    let* response := gets users_json in
    match response with
    | Some users =>
        modify (set_sessionUsers users) ;;;
        gets sessionUsers
    | None =>
        console_error "Could not fetch users:" ;;;
        modify (set_sessionUsers []) ;;;
        ret []
    end.

Definition getCurrentUser : Js (option User.t) :=
  let* userJson := gets sessionStorage in
  match userJson with
  | Some t => if JS.truthy t then let* user := JSON_parse id t in ret (Some user) else ret None
  | None => ret None
  end.

Definition saveCurrentUser (userData : User.t) : Js unit :=
  modify (set_sessionStorage (Some (JS.JSON_stringify userData))).

Definition clearCurrentUser : Js unit :=
  modify (set_sessionStorage None).

Definition updateUserNav : Js unit :=
  let* currentUser := getCurrentUser in
  emit (UserNav (match currentUser with Some _ => true | None => false end)).

(** [Math.max(...ids) + 1] when there is a user, else 1.  The sum is a
    double: the greatest id plus 1 while that is at most 2^53, and beyond
    that the double nearest to it (never an infinity: the greatest double
    plus 1 is itself). *)
Definition newId (users : list User.t) : Z :=
  match map User.id users with
  | [] => 1
  | first :: rest => JS.round (fold_left Z.max rest first + 1)
  end.

Definition registerUser (name email password : string) : Js bool :=
  let* users := fetchUsers in
  match find (fun user => String.eqb (User.email user) email) users with
  | Some _ =>
      alert "Email already exists. Please use a different email." ;;;
      ret false
  | None =>
      let newUser :=
        {| User.id := newId users;
           User.name := name;
           User.email := email;
           User.password := password;
           User.address := "" |} in
      modify (fun s => set_sessionUsers (sessionUsers s ++ [newUser]) s) ;;;
      saveCurrentUser newUser ;;;
      updateUserNav ;;;
      ret true
  end.

Definition loginUser (email password : string) : Js bool :=
  let* users := fetchUsers in
  let user := find (fun u => String.eqb (User.email u) email) users in
  match user with
  | Some user =>
      if String.eqb (User.password user) password then
        saveCurrentUser user ;;;
        updateUserNav ;;;
        ret true
      else
        alert "Invalid email or password." ;;;
        ret false
  | None =>
      alert "Invalid email or password." ;;;
      ret false
  end.

Definition logoutUser : Js unit :=
  clearCurrentUser ;;;
  updateUserNav ;;;
  alert "You have been logged out." ;;;
  emit (Location "index.html").

(** ** Cart management *)

Definition getCart : Js Cart :=
  let* cartJson := gets localStorage in
  match cartJson with
  | Some t => if JS.truthy t then JSON_parse JSON_reparse t else ret []
  | None => ret []
  end.

Definition updateCartIconCount : Js unit :=
  let* cart := getCart in
  let itemCount :=
    fold_left (fun sum item => JS.add sum (CartLine.quantity item)) cart (JS.Int 0) in
  let* cartIconCountElement := getElementById "cart-item-count" in
  if cartIconCountElement then emit (CartIconCount itemCount) else ret tt.

Definition saveCart (cart : Cart) : Js unit :=
  modify (set_localStorage (Some (JS.JSON_stringify cart))) ;;;
  updateCartIconCount.

(** The rows, their listeners and the total are one event: what is shown is
    the cart read from the store. *)
Definition displayCartItems : Js unit :=
  let* cartContainer := getElementById "cart-items-container" in
  let* cartTotalElement := getElementById "cart-grand-total" in
  if (negb cartContainer || negb cartTotalElement)%bool then ret tt
  else
    let* cart := getCart in
    emit (CartTable cart).

Definition addToCart (productId : JS.id_arg) (quantity : JS.number) (size : string) : Js unit :=
  if JS.falsy size then
    alert "Please select a size." ;;;
    console_error "Size not selected for product ID:"
  else if JS.le quantity (JS.Int 0) then
    console_error "Quantity must be positive for product ID:"
  else
    let* product := fetchProductById productId in
    match product with
    | None => console_error "Attempted to add non-existent product ID:"
    | Some product =>
        let* cart := getCart in
        let existingItemIndex :=
          JS.findIndex
            (fun item => ((CartLine.id item =? Product.id product)
                          && String.eqb (CartLine.size item) size)%bool) cart in
        let cart :=
          match existingItemIndex with
          | Some i =>
              JS.update i
                (fun item =>
                   CartLine.set_quantity (JS.add (CartLine.quantity item) quantity) item)
                cart
          | None =>
              cart ++ [ {| CartLine.id := Product.id product;
                           CartLine.name := Product.name product;
                           CartLine.price := Product.price product;
                           CartLine.image_url := Product.image_url product;
                           CartLine.quantity := quantity;
                           CartLine.size := size |} ]
          end in
        saveCart cart ;;;
        alert (Product.name product ++ " (Size: " ++ size ++ ") added to cart!")
    end.

Definition removeFromCart (productId : JS.id_arg) (size : string) : Js unit :=
  let* cart := getCart in
  let idToRemove := JS.parseInt productId in
  let cart :=
    List.filter
      (fun item => negb (JS.strict_eq (JS.Int (CartLine.id item)) idToRemove
                         && String.eqb (CartLine.size item) size)) cart in
  saveCart cart ;;;
  let* onCartPage := getElementById "cart-items-container" in
  if onCartPage then displayCartItems else ret tt.

Definition updateCartQuantity (productId : JS.id_arg) (size : string)
    (newQuantity : JS.number) : Js unit :=
  let* cart := getCart in
  let idToUpdate := JS.parseInt productId in
  let itemIndex :=
    JS.findIndex
      (fun item => (JS.strict_eq (JS.Int (CartLine.id item)) idToUpdate
                    && String.eqb (CartLine.size item) size)%bool) cart in
  match itemIndex with
  | Some i =>
      saveCart
        (if JS.gt newQuantity (JS.Int 0)
         then JS.update i (CartLine.set_quantity newQuantity) cart
         else JS.splice1 i cart)
  | None => console_error "Item not found for update:"
  end ;;;
  let* onCartPage := getElementById "cart-items-container" in
  if onCartPage then displayCartItems else ret tt.

(** ** The handlers that call the cart operations *)

(** The Add to Cart button of the product page; [productId] is the id of the
    page's URL, [sizeValue] and [quantityValue] are the values of #size-select
    and #quantity-input when the button is clicked. *)
Definition addToCartButton_click (productId sizeValue quantityValue : string) : Js unit :=
  let* selectedSizeEl := getElementById "size-select" in
  let* quantityEl := getElementById "quantity-input" in
  if (negb selectedSizeEl || negb quantityEl)%bool then
    console_error "Size or quantity elements not found on product page."
  else
    let selectedSize := sizeValue in
    let quantity := JS.parseInt_string quantityValue in
    addToCart (JS.IdString productId) quantity selectedSize.

(** The Remove button and the quantity field of a row of the cart page;
    the id and the size are the row's data attributes. *)
Definition removeCartItemButton_click (productId productSize : string) : Js unit :=
  removeFromCart (JS.IdString productId) productSize.

Definition cartItemQuantity_change (productId productSize value : string) : Js unit :=
  let newQuantity := JS.parseInt_string value in
  updateCartQuantity (JS.IdString productId) productSize newQuantity.

(** ** Vocabulary of the statements *)

(** The cart a reader of the store gets. *)
Definition persisted_cart (s : State) : completion Cart := fst (getCart s).

(** The session a reader of the store gets. *)
Definition current_user (s : State) : completion (option User.t) := fst (getCurrentUser s).

(** The user directory: the list the program looks users up in. *)
Definition directory (s : State) : completion (list User.t) := fst (fetchUsers s).

(** Fixture access resolves the id of [P] to [P]. *)
Definition resolves (s : State) (P : Product.t) : Prop :=
  fst (fetchProductById (JS.IdNumber (Product.id P)) s) = Return (Some P).

(** A line is the one for a product id and a size. *)
Definition line_for (productId : JS.number) (size : string) (item : CartLine.t) : Prop :=
  JS.Int (CartLine.id item) = productId /\ CartLine.size item = size.

(** The line [addToCart] appends for a product: its name, price and image as
    the fixture has them now. *)
Definition snapshot (P : Product.t) (quantity : JS.number) (size : string) : CartLine.t :=
  {| CartLine.id := Product.id P;
     CartLine.name := Product.name P;
     CartLine.price := Product.price P;
     CartLine.image_url := Product.image_url P;
     CartLine.quantity := quantity;
     CartLine.size := size |}.

(** The cart invariant: one line at most per (product id, size), and every
    quantity an integer that is at least 1. *)
Definition unique_lines (cart : Cart) : Prop := NoDup (map CartLine.key cart).

Definition positive_quantities (cart : Cart) : Prop :=
  Forall (fun item => exists n, CartLine.quantity item = JS.Int n /\ 1 <= n) cart.

Definition cart_invariant (cart : Cart) : Prop :=
  unique_lines cart /\ positive_quantities cart.

#[global] Instance number_eq_dec : EqDecision JS.number.
Proof. solve_decision. Defined.

#[global] Instance line_for_dec productId size item : Decision (line_for productId size item).
Proof. unfold line_for. apply _. Defined.

(** The cart holds at most one line for a product id and a size. *)
Definition at_most_one_line_for (productId : JS.number) (size : string) (cart : Cart) : Prop :=
  (length (filter (fun item => line_for productId size item) cart) <= 1)%nat.

(** ** States used as examples *)

Definition tee : Product.t :=
  {| Product.id := 42; Product.name := "Tee"; Product.price := 1099 # 100;
     Product.image_url := "images/tee.jpg"; Product.description := "A plain tee";
     Product.sizes := ["S"; "M"; "L"]; Product.category := "Tops" |}.

Definition alice : User.t :=
  {| User.id := 5; User.name := "Alice"; User.email := "alice@example.com";
     User.password := "wonderland"; User.address := "1 Main St" |}.

(** A page that has just loaded: nothing in memory, and the given stores. *)
Definition loaded (products : option (list Product.t)) (users : option (list User.t))
    (cart : option (JS.text Cart)) (session : option (JS.text User.t)) : State :=
  {| products_json := products; users_json := users;
     document := ["cart-item-count"; "cart-items-container"; "cart-grand-total"];
     localStorage := cart; sessionStorage := session;
     sessionUsers := []; trace := [] |}.

(** A shop with one product and one account, and a cart stored. *)
Definition shop (cart : option (JS.text Cart)) : State :=
  loaded (Some [tee]) (Some [alice]) cart None.

(** [m] is the greatest number of [l]. *)
Definition is_max (m : Z) (l : list Z) : Prop :=
  In m l /\ forall x, In x l -> x <= m.

(** [u] is the first user of the directory with that email. *)
Definition first_with_email (email : string) (users : list User.t) (u : User.t) : Prop :=
  exists pre post,
    users = pre ++ u :: post /\ User.email u = email /\
    forall x, In x pre -> User.email x <> email.

(** The record [registerUser] creates for a directory. *)
Definition new_user (users : list User.t) (name email password : string) : User.t :=
  {| User.id := newId users; User.name := name; User.email := email;
     User.password := password; User.address := "" |}.

(** The overlay of a page whose user fixture is what it was when the page
    loaded: nothing yet, or the fixture (as far as it loaded) followed by the
    users registered since. *)
Definition seeded (s : State) : Prop :=
  sessionUsers s = [] \/
  exists registered, sessionUsers s = default [] (users_json s) ++ registered.

(** The ways [addToCart] gives up, and the console message that tells each. *)
Inductive failure := MissingSize | NonPositiveQuantity | ProductNotFound.

Definition report (f : failure) : event :=
  ConsoleError
    match f with
    | MissingSize => "Size not selected for product ID:"
    | NonPositiveQuantity => "Quantity must be positive for product ID:"
    | ProductNotFound => "Attempted to add non-existent product ID:"
    end.

(** A run from [s] to [s'] failed with [f]: the report is the last event, and
    the stored cart is the text it was. *)
Definition fails_with (f : failure) (s s' : State) : Prop :=
  head (trace s') = Some (report f) /\ localStorage s' = localStorage s.

(** The product page of the tee, the cart empty. *)
Definition product_page : State :=
  {| products_json := Some [tee]; users_json := Some [alice];
     document := ["product-detail-container"; "size-select"; "quantity-input";
                  "add-to-cart-btn"; "cart-item-count"];
     localStorage := None; sessionStorage := None;
     sessionUsers := []; trace := [] |}.


(** Stores that hold a text that is not JSON. *)
Definition corrupt_cart : State := loaded (Some [tee]) (Some [alice]) (Some (JS.Raw "{not json" eq_refl)) None.

Definition corrupt_session : State :=
  loaded (Some [tee]) (Some [alice]) None (Some (JS.Raw "{not json" eq_refl)).

(** A cart that breaks the invariant: two lines for (42, M). *)
Definition doubled_cart : Cart :=
  [snapshot tee (JS.Int 1) "M"; snapshot tee (JS.Int 3) "S"; snapshot tee (JS.Int 2) "M"].

(** ** Vocabulary of the proofs *)

(** A cart that JSON writes and reads back as it is: no quantity is NaN or
    an infinity. *)
Definition round_trips (cart : Cart) : Prop :=
  Forall (fun item => JS.JSON_number (CartLine.quantity item) = CartLine.quantity item) cart.

(** What the callbacks of [findIndex] and [filter] compute. *)
Definition for_product (productId : JS.number) (size : string) (item : CartLine.t) : bool :=
  JS.strict_eq (JS.Int (CartLine.id item)) productId && String.eqb (CartLine.size item) size.

(** Two states that differ in the trace at most. *)
Record same_stores (s s' : State) : Prop := {
  same_localStorage : localStorage s' = localStorage s;
  same_sessionStorage : sessionStorage s' = sessionStorage s;
  same_sessionUsers : sessionUsers s' = sessionUsers s;
  same_products : products_json s' = products_json s;
  same_users : users_json s' = users_json s;
  same_document : document s' = document s }.

(** What [saveCart] leaves behind: the cart under the key, everything else
    but the trace as it was. *)
Record saved (cart : Cart) (s s' : State) : Prop := {
  saved_localStorage : localStorage s' = Some (JS.JSON_stringify cart);
  saved_sessionStorage : sessionStorage s' = sessionStorage s;
  saved_sessionUsers : sessionUsers s' = sessionUsers s;
  saved_products : products_json s' = products_json s;
  saved_users : users_json s' = users_json s;
  saved_document : document s' = document s }.

(** What [fetchUsers] leaves behind: the directory in memory, the stores and
    the documents as they were. *)
Record fetched (users : list User.t) (s s' : State) : Prop := {
  fetched_sessionUsers : sessionUsers s' = users;
  fetched_localStorage : localStorage s' = localStorage s;
  fetched_sessionStorage : sessionStorage s' = sessionStorage s;
  fetched_products : products_json s' = products_json s;
  fetched_users : users_json s' = users_json s;
  fetched_document : document s' = document s }.

(** ** Numbers as text *)

(** [String(n)], which is also what a template literal makes of [n], for an
    integer that a double holds exactly: its decimal digits, after a minus
    sign when it is negative. *)
Definition Number_toString (n : Z) : string := NilZero.string_of_int (Z.to_int n).

(** The number a run of decimal digits stands for, read after [acc]. *)
Fixpoint uint_value (d : Decimal.uint) (acc : Z) : Z :=
  match d with
  | Decimal.Nil => acc
  | Decimal.D0 l => uint_value l (10 * acc + 0)
  | Decimal.D1 l => uint_value l (10 * acc + 1)
  | Decimal.D2 l => uint_value l (10 * acc + 2)
  | Decimal.D3 l => uint_value l (10 * acc + 3)
  | Decimal.D4 l => uint_value l (10 * acc + 4)
  | Decimal.D5 l => uint_value l (10 * acc + 5)
  | Decimal.D6 l => uint_value l (10 * acc + 6)
  | Decimal.D7 l => uint_value l (10 * acc + 7)
  | Decimal.D8 l => uint_value l (10 * acc + 8)
  | Decimal.D9 l => uint_value l (10 * acc + 9)
  end.

(** ** The views and the forms *)

(** What [displayProductsOnPage] writes into #product-listing-container:
    the message, or a card per product; a card shows the product and links
    to [product_detail.html?id=] followed by the text of its id. *)
Inductive product_listing :=
| NoProductsFound
| ProductCards (cards : list (Product.t * string)).

(** The function returns what it writes, [None] when it writes nothing. *)
Definition displayProductsOnPage : Js (option product_listing) :=
  let* productsContainer := getElementById "product-listing-container" in
  if negb productsContainer then ret None
  else
    let* products := fetchProducts in
    if Z.of_nat (length products) =? 0 then ret (Some NoProductsFound)
    else
      ret (Some (ProductCards
                   (map (fun product => (product, Number_toString (Product.id product)))
                        products))).

(** What [displayProductDetailsOnPage] writes into #product-detail-container. *)
Inductive product_detail :=
| NoProductIdSpecified
| ProductNotFoundText
| ProductDetails (product : Product.t).

(** [productId] is the [id] parameter of the page's URL, [None] when the URL
    has none. *)
Definition displayProductDetailsOnPage (productId : option string) : Js (option product_detail) :=
  let* productDetailContainer := getElementById "product-detail-container" in
  if negb productDetailContainer then ret None
  else
    match productId with
    | None => ret (Some NoProductIdSpecified)
    | Some productId =>
        if JS.falsy productId then ret (Some NoProductIdSpecified)
        else
          let* product := fetchProductById (JS.IdString productId) in
          match product with
          | None => ret (Some ProductNotFoundText)
          | Some product => ret (Some (ProductDetails product))
          end
    end.

(** What [displayAccountDetails] writes into #account-details: the name, the
    email and the address of the current user. *)
Definition displayAccountDetails : Js (option (string * string * string)) :=
  let* currentUser := getCurrentUser in
  let* accountDetailsContainer := getElementById "account-details" in
  match currentUser with
  | None => emit (Location "login.html") ;;; ret None
  | Some currentUser =>
      if accountDetailsContainer then
        ret (Some (User.name currentUser, User.email currentUser,
                   if JS.falsy (User.address currentUser) then "Not set"
                   else User.address currentUser))
      else ret None
  end.

(** The submit listeners of the two forms; the arguments are the values of
    the form's fields. *)
Definition loginForm_submit (email password : string) : Js unit :=
  let* success := loginUser email password in
  if success then emit (Location "account.html") else ret tt.

Definition registrationForm_submit (name email password confirmPassword : string) : Js unit :=
  if negb (String.eqb password confirmPassword) then alert "Passwords do not match."
  else
    let* success := registerUser name email password in
    if success then emit (Location "account.html") else ret tt.

(** ** The surroundings *)

(** Another page of the site has loaded: the script has run its top-level
    statements again ([let sessionUsers = []]) on a document with the given
    elements; what localStorage and sessionStorage hold stays. *)
Definition page_load (elements : list string) (s : State) : State :=
  {| products_json := products_json s; users_json := users_json s;
     document := elements; localStorage := localStorage s;
     sessionStorage := sessionStorage s; sessionUsers := [];
     trace := trace s |}.

(** The document [data/users.json] becomes what [fetch] will get from now on. *)
Definition set_users_json (v : option (list User.t)) (s : State) : State :=
  {| products_json := products_json s; users_json := v;
     document := document s; localStorage := localStorage s;
     sessionStorage := sessionStorage s; sessionUsers := sessionUsers s;
     trace := trace s |}.

(** ** Vocabulary of the further statements *)

(** The number [updateCartIconCount] shows for a cart. *)
Definition item_count (cart : Cart) : JS.number :=
  fold_left (fun sum item => JS.add sum (CartLine.quantity item)) cart (JS.Int 0).

(** What #cart-item-count shows: the count last written to it. *)
Fixpoint badge (events : list event) : option JS.number :=
  match events with
  | [] => None
  | CartIconCount itemCount :: _ => Some itemCount
  | _ :: earlier => badge earlier
  end.

(** The badge shows the count of the cart that is stored. *)
Definition badge_in_sync (s : State) : Prop :=
  forall cart, persisted_cart s = Return cart -> badge (trace s) = Some (item_count cart).

(** The page has the badge. *)
Definition has_badge (s : State) : Prop := In "cart-item-count" (document s).

(** A directory in which no email and no id occurs twice. *)
Definition distinct_users (users : list User.t) : Prop :=
  NoDup (map User.email users) /\ NoDup (map User.id users).

(** An integer below 2^53 in magnitude: a double holds it exactly. *)
Definition safe_integer (n : Z) : Prop := Z.abs n < 2 ^ 53.

(** The cart [addToCart] saves for a product that resolved, a size and a
    quantity that passed the guards. *)
Definition with_added (P : Product.t) (quantity : JS.number) (size : string) (cart : Cart) : Cart :=
  match JS.findIndex (for_product (JS.Int (Product.id P)) size) cart with
  | Some i =>
      JS.update i
        (fun item => CartLine.set_quantity (JS.add (CartLine.quantity item) quantity) item)
        cart
  | None => cart ++ [snapshot P quantity size]
  end.

(** ** Arrays *)

Section Arrays.
Context {A : Type}.
Implicit Types (f : A -> bool) (l pre post : list A).

Lemma findIndex_Some f l i :
  JS.findIndex f l = Some i ->
  exists pre x post,
    l = pre ++ x :: post /\ length pre = i /\ f x = true /\
    (forall y, In y pre -> f y = false).
Proof.
  revert i. induction l as [|a l IH]; intros i; cbn; [discriminate|].
  destruct (f a) eqn:Hfa.
  - intros [= <-]. exists [], a, l. repeat split; auto. intros y [].
  - destruct (JS.findIndex f l) as [j|] eqn:Hj; cbn; [|discriminate].
    intros [= <-]. destruct (IH j eq_refl) as (pre & x & post & -> & <- & Hx & Hpre).
    exists (a :: pre), x, post. repeat split; auto.
    intros y [<-|Hy]; auto.
Qed.

Lemma findIndex_None f l :
  JS.findIndex f l = None -> forall y, In y l -> f y = false.
Proof.
  induction l as [|a l IH]; cbn; [intros _ y []|].
  destruct (f a) eqn:Hfa; [discriminate|].
  destruct (JS.findIndex f l); cbn; [discriminate|].
  intros _ y [<-|Hy]; auto.
Qed.

Lemma findIndex_first f pre x post :
  f x = true -> (forall y, In y pre -> f y = false) ->
  JS.findIndex f (pre ++ x :: post) = Some (length pre).
Proof.
  intros Hx. induction pre as [|a pre IH]; intros Hpre; cbn.
  - now rewrite Hx.
  - rewrite (Hpre a) by now left. rewrite IH; [reflexivity|].
    intros y Hy. apply Hpre. now right.
Qed.

Lemma findIndex_is_None f l :
  (forall y, In y l -> f y = false) -> JS.findIndex f l = None.
Proof.
  induction l as [|a l IH]; intros H; cbn; [reflexivity|].
  rewrite (H a) by now left. rewrite IH; [reflexivity|].
  intros y Hy. apply H. now right.
Qed.

Lemma update_middle (g : A -> A) pre x post :
  JS.update (length pre) g (pre ++ x :: post) = pre ++ g x :: post.
Proof. induction pre as [|a pre IH]; cbn; [reflexivity|]. now rewrite IH. Qed.

Lemma splice1_middle pre x post :
  JS.splice1 (length pre) (pre ++ x :: post) = pre ++ post.
Proof. induction pre as [|a pre IH]; cbn; [reflexivity|]. now rewrite IH. Qed.

Lemma filter_nothing f l :
  (forall y, In y l -> f y = true) -> List.filter f l = l.
Proof.
  induction l as [|a l IH]; intros H; cbn; [reflexivity|].
  rewrite (H a) by now left. rewrite IH; [reflexivity|].
  intros y Hy. apply H. now right.
Qed.
End Arrays.

(** ** The JSON round trip of a cart *)

Lemma set_quantity_same (item : CartLine.t) :
  CartLine.set_quantity (CartLine.quantity item) item = item.
Proof. now destruct item. Qed.

Lemma JSON_number_idem (n : JS.number) : JS.JSON_number (JS.JSON_number n) = JS.JSON_number n.
Proof. now destruct n. Qed.

Lemma JSON_reparse_round_trips (cart : Cart) : round_trips (JSON_reparse cart).
Proof.
  induction cart as [|item cart IH]; constructor; auto.
  cbn. apply JSON_number_idem.
Qed.

Lemma JSON_reparse_id (cart : Cart) : round_trips cart -> JSON_reparse cart = cart.
Proof.
  induction 1 as [|item cart Hq _ IH]; cbn; [reflexivity|].
  unfold JSON_reparse in IH. rewrite IH. f_equal.
  rewrite Hq. apply set_quantity_same.
Qed.

Lemma JSON_reparse_idem (cart : Cart) : JSON_reparse (JSON_reparse cart) = JSON_reparse cart.
Proof. apply JSON_reparse_id, JSON_reparse_round_trips. Qed.

Lemma positive_round_trips (cart : Cart) : positive_quantities cart -> round_trips cart.
Proof.
  unfold positive_quantities, round_trips.
  induction 1 as [|item cart (n & Hn & _) _ IH]; constructor; auto.
  now rewrite Hn.
Qed.

(** ** Reading and writing the cart store *)

Lemma getCart_state (s : State) : snd (getCart s) = s.
Proof.
  unfold getCart, bind, gets; cbn.
  destruct (localStorage s) as [[c|raw]|]; cbn; try reflexivity.
  destruct (JS.falsy raw); reflexivity.
Qed.

Lemma persisted_cart_getCart (s : State) (cart : Cart) :
  persisted_cart s = Return cart -> getCart s = (Return cart, s).
Proof.
  unfold persisted_cart. intros H. rewrite (surjective_pairing (getCart s)).
  now rewrite H, getCart_state.
Qed.

Lemma persisted_cart_round_trips (s : State) (cart : Cart) :
  persisted_cart s = Return cart -> round_trips cart.
Proof.
  unfold persisted_cart, getCart, bind, gets; cbn.
  destruct (localStorage s) as [[c|raw]|]; cbn.
  - intros [= <-]. apply JSON_reparse_round_trips.
  - destruct (JS.falsy raw); cbn; [|discriminate]. intros [= <-]. constructor.
  - intros [= <-]. constructor.
Qed.

Lemma persisted_cart_ext (s s' : State) :
  localStorage s' = localStorage s -> persisted_cart s' = persisted_cart s.
Proof.
  unfold persisted_cart, getCart, bind, gets; cbn. intros ->.
  destruct (localStorage s) as [[c|raw]|]; cbn; try reflexivity.
  destruct (JS.falsy raw); reflexivity.
Qed.

Lemma persisted_cart_written (s : State) (cart : Cart) :
  localStorage s = Some (JS.JSON_stringify cart) ->
  persisted_cart s = Return (JSON_reparse cart).
Proof. unfold persisted_cart, getCart, bind, gets; cbn. now intros ->. Qed.

Lemma saveCart_saved (cart : Cart) (s : State) :
  exists s', saveCart cart s = (Return tt, s') /\ saved cart s s'.
Proof.
  destruct s as [pj uj doc ls ss su tr].
  unfold saveCart, updateCartIconCount, getCart, getElementById, emit, bind, gets, modify, ret; cbn.
  destruct (existsb _ doc); eexists; (split; [reflexivity|]); now constructor.
Qed.

Lemma bind_Return {A B : Type} (m : Js A) (k : A -> Js B) (s s' : State) (a : A) :
  m s = (Return a, s') -> bind m k s = k a s'.
Proof. unfold bind. now intros ->. Qed.

Lemma bind_Throw {A B : Type} (m : Js A) (k : A -> Js B) (s s' : State) (e : JS.exn) :
  m s = (Throw e, s') -> bind m k s = (Throw e, s').
Proof. unfold bind. now intros ->. Qed.

Lemma same_stores_refl (s : State) : same_stores s s.
Proof. now constructor. Qed.

Lemma same_stores_trans (s1 s2 s3 : State) :
  same_stores s1 s2 -> same_stores s2 s3 -> same_stores s1 s3.
Proof. intros [] []. constructor; congruence. Qed.

Lemma same_stores_trace (tr : list event) (s : State) : same_stores s (set_trace tr s).
Proof. now constructor. Qed.

Lemma saved_same (cart : Cart) (s s1 s2 : State) :
  saved cart s s1 -> same_stores s1 s2 -> saved cart s s2.
Proof. intros [] []. constructor; congruence. Qed.

Lemma same_saved (cart : Cart) (s s1 s2 : State) :
  same_stores s s1 -> saved cart s1 s2 -> saved cart s s2.
Proof. intros [] []. constructor; congruence. Qed.

Create HintDb stores.
#[local] Hint Resolve same_stores_refl same_stores_trace : stores.

#[local] Arguments getCart : simpl never.
#[local] Arguments saveCart : simpl never.

(** The view synchronizers read the stores and write to the page only. *)
Lemma displayCartItems_same (s : State) (cart : Cart) :
  persisted_cart s = Return cart ->
  exists s', displayCartItems s = (Return tt, s') /\ same_stores s s'.
Proof.
  intros H. apply persisted_cart_getCart in H.
  unfold displayCartItems, getElementById, bind, gets; cbn.
  destruct (negb _ || negb _)%bool; [exists s; split; [reflexivity|auto with stores]|].
  rewrite H. eexists; split; [reflexivity|]. apply same_stores_trace.
Qed.

Lemma refresh_cart_page (s : State) (cart : Cart) :
  persisted_cart s = Return cart ->
  exists s',
    (let* onCartPage := getElementById "cart-items-container" in
     if onCartPage then displayCartItems else ret tt) s = (Return tt, s') /\
    same_stores s s'.
Proof.
  intros H. unfold getElementById, bind at 1, gets; cbn.
  destruct (existsb _ (document s)).
  - now apply displayCartItems_same with cart.
  - exists s. split; [reflexivity|auto with stores].
Qed.

Lemma fetchProductById_same (productId : JS.id_arg) (s : State) :
  exists product s',
    fetchProductById productId s = (Return product, s') /\ same_stores s s'.
Proof.
  destruct s as [pj uj doc ls ss su tr].
  unfold fetchProductById, fetchProducts, console_error, emit, bind, gets, modify, ret; cbn.
  destruct pj; cbn; do 2 eexists; (split; [reflexivity|]); now constructor.
Qed.

Lemma resolves_fixture (s : State) (P : Product.t) :
  resolves s P <->
  exists products,
    products_json s = Some products /\
    find (fun p => Product.id p =? Product.id P) products = Some P.
Proof.
  unfold resolves, fetchProductById, fetchProducts, console_error, emit, bind, gets, modify, ret; cbn.
  destruct (products_json s) as [products|]; cbn; split.
  - intros [= H]. now exists products.
  - intros (? & [= <-] & H). now rewrite H.
  - discriminate.
  - intros (? & [=] & _).
Qed.

Lemma resolves_ext (s s' : State) (P : Product.t) :
  products_json s' = products_json s -> resolves s P -> resolves s' P.
Proof. rewrite !resolves_fixture. now intros ->. Qed.

(** ** Runs of the cart operations *)

Lemma for_product_line_for productId size item :
  for_product productId size item = true <-> line_for productId size item.
Proof.
  unfold for_product, line_for. rewrite andb_true_iff, String.eqb_eq.
  destruct productId; cbn; rewrite ?Z.eqb_eq; split; intros [H1 H2]; split;
    congruence || discriminate.
Qed.

Lemma for_product_not_line_for productId size item :
  for_product productId size item = false <-> ~ line_for productId size item.
Proof.
  rewrite <- for_product_line_for. destruct (for_product productId size item); split;
    congruence || tauto || (intros H; exfalso; now apply H).
Qed.

Lemma removeFromCart_run (productId : JS.id_arg) (size : string) (s : State) (cart : Cart) :
  persisted_cart s = Return cart ->
  exists s',
    removeFromCart productId size s = (Return tt, s') /\
    saved (List.filter (fun item => negb (for_product (JS.parseInt productId) size item)) cart) s s'.
Proof.
  intros H. unfold removeFromCart.
  rewrite (bind_Return _ _ _ _ _ (persisted_cart_getCart _ _ H)).
  set (cart' := List.filter _ cart).
  destruct (saveCart_saved cart' s) as (s1 & Hs1 & Hsaved).
  rewrite (bind_Return _ _ _ _ _ Hs1).
  destruct (refresh_cart_page s1 (JSON_reparse cart')) as (s2 & Hs2 & Hsame).
  { apply persisted_cart_written, Hsaved. }
  exists s2. split; [exact Hs2|]. eapply saved_same; eauto.
Qed.

Lemma updateCartQuantity_run (productId : JS.id_arg) (size : string) (n : JS.number)
    (s : State) (cart : Cart) :
  persisted_cart s = Return cart ->
  exists s',
    updateCartQuantity productId size n s = (Return tt, s') /\
    match JS.findIndex (for_product (JS.parseInt productId) size) cart with
    | Some i =>
        saved (if JS.gt n (JS.Int 0)
               then JS.update i (CartLine.set_quantity n) cart
               else JS.splice1 i cart) s s'
    | None => same_stores s s'
    end.
Proof.
  intros H. unfold updateCartQuantity.
  rewrite (bind_Return _ _ _ _ _ (persisted_cart_getCart _ _ H)).
  fold (for_product (JS.parseInt productId) size).
  destruct (JS.findIndex _ cart) as [i|].
  - set (cart' := if JS.gt n (JS.Int 0) then _ else _).
    destruct (saveCart_saved cart' s) as (s1 & Hs1 & Hsaved).
    rewrite (bind_Return _ _ _ _ _ Hs1).
    destruct (refresh_cart_page s1 (JSON_reparse cart')) as (s2 & Hs2 & Hsame).
    { apply persisted_cart_written, Hsaved. }
    exists s2. split; [exact Hs2|]. eapply saved_same; eauto.
  - unfold console_error, emit, modify, bind at 1.
    destruct (refresh_cart_page (set_trace (ConsoleError "Item not found for update:" :: trace s) s) cart)
      as (s2 & Hs2 & Hsame).
    { rewrite <- H. now apply persisted_cart_ext. }
    exists s2. split; [exact Hs2|].
    eapply same_stores_trans; [apply same_stores_trace|exact Hsame].
Qed.

Lemma fetchProductById_found (productId : JS.id_arg) (s : State) (P : Product.t) :
  fst (fetchProductById productId s) = Return (Some P) ->
  exists s', fetchProductById productId s = (Return (Some P), s') /\ same_stores s s'.
Proof.
  intros H. destruct (fetchProductById_same productId s) as (p & s' & E & Hs).
  rewrite E in H. cbn in H. injection H as ->. now exists s'.
Qed.

Lemma addToCart_run (productId : JS.id_arg) (P : Product.t) (quantity : JS.number)
    (size : string) (s : State) (cart : Cart) :
  fst (fetchProductById productId s) = Return (Some P) ->
  JS.falsy size = false -> JS.le quantity (JS.Int 0) = false ->
  persisted_cart s = Return cart ->
  exists s',
    addToCart productId quantity size s = (Return tt, s') /\
    saved
      match JS.findIndex (for_product (JS.Int (Product.id P)) size) cart with
      | Some i =>
          JS.update i
            (fun item => CartLine.set_quantity (JS.add (CartLine.quantity item) quantity) item)
            cart
      | None => cart ++ [snapshot P quantity size]
      end s s'.
Proof.
  intros HP Hsize Hq H. unfold addToCart. rewrite Hsize, Hq.
  destruct (fetchProductById_found productId s P HP) as (s0 & Hs0 & Hsame0).
  rewrite (bind_Return _ _ _ _ _ Hs0).
  assert (H0 : persisted_cart s0 = Return cart).
  { rewrite <- H. apply persisted_cart_ext, Hsame0. }
  rewrite (bind_Return _ _ _ _ _ (persisted_cart_getCart _ _ H0)).
  change (JS.findIndex _ cart)
    with (JS.findIndex (for_product (JS.Int (Product.id P)) size) cart).
  fold (snapshot P quantity size).
  set (cart' := match JS.findIndex _ cart with Some _ => _ | None => _ end).
  destruct (saveCart_saved cart' s0) as (s1 & Hs1 & Hsaved).
  rewrite (bind_Return _ _ _ _ _ Hs1).
  unfold alert, emit, modify. eexists. split; [reflexivity|].
  eapply same_saved; [exact Hsame0|].
  eapply saved_same; [exact Hsaved|apply same_stores_trace].
Qed.

(** ** Lines for a product and a size *)

Lemma filter_line_for (productId : JS.number) (size : string) (cart : Cart) :
  List.filter (fun item => negb (for_product productId size item)) cart =
  filter (fun item => ~ line_for productId size item) cart.
Proof.
  induction cart as [|item cart IH]; [reflexivity|].
  cbn [List.filter]. rewrite filter_cons, IH.
  destruct (for_product productId size item) eqn:E; cbn.
  - apply for_product_line_for in E. now rewrite decide_False by tauto.
  - apply for_product_not_line_for in E. now rewrite decide_True.
Qed.

Lemma line_for_key (z : Z) (size : string) (item : CartLine.t) :
  line_for (JS.Int z) size item <-> CartLine.key item = (z, size).
Proof.
  unfold line_for, CartLine.key. split.
  - intros [[= ->] ->]. reflexivity.
  - intros [= -> ->]. now split.
Qed.

Lemma line_for_same_key (productId : JS.number) (size : string) (x y : CartLine.t) :
  line_for productId size x -> line_for productId size y -> CartLine.key x = CartLine.key y.
Proof.
  unfold line_for, CartLine.key. intros [Hx ->] [Hy ->].
  rewrite <- Hy in Hx. now injection Hx as ->.
Qed.

Lemma at_most_one_only (productId : JS.number) (size : string) (pre post : Cart)
    (x : CartLine.t) :
  at_most_one_line_for productId size (pre ++ x :: post) -> line_for productId size x ->
  forall y, In y (pre ++ post) -> ~ line_for productId size y.
Proof.
  unfold at_most_one_line_for. intros Hone Hx y Hy Hline.
  rewrite filter_app, filter_cons_True, length_app in Hone by exact Hx.
  cbn [length] in Hone.
  assert (Hin : y ∈ filter (fun item => line_for productId size item) pre \/
                y ∈ filter (fun item => line_for productId size item) post).
  { apply in_app_or in Hy as [Hy|Hy]; [left|right];
      apply list_elem_of_filter; (split; [exact Hline|now apply list_elem_of_In]). }
  destruct Hin as [Hin|Hin];
    [destruct (filter _ pre)|destruct (filter _ post)];
    solve [ inversion Hin | cbn [length] in Hone; lia ].
Qed.

Lemma unique_lines_at_most_one (productId : JS.number) (size : string) (cart : Cart) :
  unique_lines cart -> at_most_one_line_for productId size cart.
Proof.
  unfold unique_lines, at_most_one_line_for.
  induction cart as [|x cart IH]; cbn [map]; [cbn; lia|].
  rewrite NoDup_cons. intros [Hnotin Hnd]. rewrite filter_cons.
  destruct (decide (line_for productId size x)) as [Hx|_]; [|now apply IH].
  assert (Hnone : filter (fun item => line_for productId size item) cart = []).
  { destruct (filter _ cart) as [|y l] eqn:E; [reflexivity|]. exfalso.
    assert (Hy : y ∈ filter (fun item => line_for productId size item) cart)
      by (rewrite E; left).
    apply list_elem_of_filter in Hy as [Hline Hy].
    apply Hnotin. rewrite (line_for_same_key _ _ _ _ Hx Hline).
    apply list_elem_of_In, in_map. now apply list_elem_of_In. }
  rewrite Hnone. cbn. lia.
Qed.

Lemma filter_removes_the_line (productId : JS.number) (size : string) (pre post : Cart)
    (x : CartLine.t) :
  line_for productId size x ->
  (forall y, In y (pre ++ post) -> ~ line_for productId size y) ->
  List.filter (fun item => negb (for_product productId size item)) (pre ++ x :: post) =
  pre ++ post.
Proof.
  intros Hx Hothers. rewrite List.filter_app. cbn [List.filter].
  apply for_product_line_for in Hx. rewrite Hx. cbn [negb].
  rewrite !filter_nothing; [reflexivity| |].
  - intros y Hy. apply negb_true_iff, for_product_not_line_for, Hothers, in_or_app. now right.
  - intros y Hy. apply negb_true_iff, for_product_not_line_for, Hothers, in_or_app. now left.
Qed.

Lemma round_trips_middle (pre post : Cart) (x : CartLine.t) :
  round_trips (pre ++ x :: post) -> round_trips (pre ++ post).
Proof.
  unfold round_trips. rewrite !Forall_app, Forall_cons. tauto.
Qed.

Lemma round_trips_filter (f : CartLine.t -> bool) (cart : Cart) :
  round_trips cart -> round_trips (List.filter f cart).
Proof.
  unfold round_trips. induction 1 as [|item cart Hq _ IH]; cbn; [constructor|].
  destruct (f item); [constructor|]; auto.
Qed.

Lemma saved_persisted (cart : Cart) (s s' : State) :
  saved cart s s' -> round_trips cart -> persisted_cart s' = Return cart.
Proof.
  intros Hsaved Hnan. rewrite (persisted_cart_written s' cart) by apply Hsaved.
  now rewrite JSON_reparse_id.
Qed.

Lemma falsy_false (size : string) : size <> "" -> JS.falsy size = false.
Proof. now destruct size. Qed.

(** *** Integers that a double holds *)

Lemma round_safe (z : Z) : Z.abs z <= 2 ^ 53 -> JS.round z = z.
Proof. unfold JS.round. intros H. now rewrite (proj2 (Z.leb_le _ _) H). Qed.

Lemma of_Z_safe (z : Z) : Z.abs z <= 2 ^ 53 -> JS.of_Z z = JS.Int z.
Proof.
  intros H. unfold JS.of_Z. rewrite (round_safe z H).
  assert (H1024 : 2 ^ 53 < 2 ^ 1024) by (apply Z.pow_lt_mono_r; lia).
  destruct (Z.leb_spec (2 ^ 1024) (Z.abs z)) as [Hle|_]; [lia|reflexivity].
Qed.

Lemma add_safe (n q : Z) : safe_integer (n + q) -> JS.add (JS.Int n) (JS.Int q) = JS.Int (n + q).
Proof. unfold safe_integer. intros H. cbn. apply of_Z_safe. lia. Qed.

Lemma safe_between (a b c : Z) : safe_integer a -> safe_integer c -> a <= b <= c -> safe_integer b.
Proof. unfold safe_integer. lia. Qed.

Lemma JSON_reparse_middle (pre post : Cart) (x : CartLine.t) (q : JS.number) :
  round_trips (pre ++ x :: post) ->
  JSON_reparse (pre ++ CartLine.set_quantity q x :: post)
    = pre ++ CartLine.set_quantity (JS.JSON_number q) x :: post.
Proof.
  unfold round_trips. rewrite Forall_app, Forall_cons. intros (Hpre & _ & Hpost).
  unfold JSON_reparse. rewrite map_app. cbn [map].
  fold (JSON_reparse pre). fold (JSON_reparse post).
  now rewrite !JSON_reparse_id.
Qed.

(** The cart a successful [addToCart] of an integer quantity leaves in the
    store, in both of its cases. *)
Lemma addToCart_persisted (productId : JS.id_arg) (P : Product.t) (q : Z) (size : string)
    (s : State) (cart : Cart) :
  fst (fetchProductById productId s) = Return (Some P) ->
  size <> "" -> 0 < q -> persisted_cart s = Return cart ->
  exists s',
    addToCart productId (JS.Int q) size s = (Return tt, s') /\
    products_json s' = products_json s /\
    ((exists pre item post,
        cart = pre ++ item :: post /\
        line_for (JS.Int (Product.id P)) size item /\
        (forall x, In x pre -> ~ line_for (JS.Int (Product.id P)) size x) /\
        persisted_cart s' =
          Return (pre ++ CartLine.set_quantity
                           (JS.JSON_number (JS.add (CartLine.quantity item) (JS.Int q))) item
                      :: post)) \/
     ((forall x, In x cart -> ~ line_for (JS.Int (Product.id P)) size x) /\
      persisted_cart s' = Return (cart ++ [snapshot P (JS.Int q) size]))).
Proof.
  intros HP Hsize Hq H.
  destruct (addToCart_run productId P (JS.Int q) size s cart HP) as (s' & Hrun & Hsaved); auto.
  { now apply falsy_false. }
  { cbn. now apply Z.leb_gt. }
  pose proof (persisted_cart_round_trips _ _ H) as Hnan.
  exists s'. split; [exact Hrun|]. split; [apply Hsaved|].
  destruct (JS.findIndex _ cart) as [i|] eqn:Hfind.
  - left. apply findIndex_Some in Hfind as (pre & item & post & -> & <- & Hitem & Hpre).
    rewrite update_middle in Hsaved.
    exists pre, item, post. split; [reflexivity|].
    split; [now apply for_product_line_for|]. split.
    + intros x Hx. now apply for_product_not_line_for, Hpre.
    + rewrite (persisted_cart_written s' _ (saved_localStorage _ _ _ Hsaved)).
      now rewrite JSON_reparse_middle.
  - right. split.
    + intros x Hx. apply for_product_not_line_for. now apply (findIndex_None _ _ Hfind).
    + apply (saved_persisted _ _ _ Hsaved).
      unfold round_trips in *. rewrite Forall_app, Forall_cons.
      split; [exact Hnan|]. split; [reflexivity|constructor].
Qed.

(** ** The claims about the cart *)

(** C1, as stated, fails where a double no longer holds the sum: a line of
    quantity 2^53 - 1 and [addToCart] with quantity 2 leave a line of quantity
    2^53, which is not the quantity incremented by 2. *)
Lemma addToCart_rounds_the_sum :
  resolves (shop (Some (JS.JSON_stringify [snapshot tee (JS.Int 9007199254740991) "M"]))) tee /\
  persisted_cart (shop (Some (JS.JSON_stringify [snapshot tee (JS.Int 9007199254740991) "M"])))
    = Return [snapshot tee (JS.Int 9007199254740991) "M"] /\
  persisted_cart
    (snd (addToCart (JS.IdNumber 42) (JS.Int 2) "M"
            (shop (Some (JS.JSON_stringify [snapshot tee (JS.Int 9007199254740991) "M"])))))
    = Return [snapshot tee (JS.Int 9007199254740992) "M"] /\
  9007199254740992 <> 9007199254740991 + 2.
Proof. split; [reflexivity|]. split; [reflexivity|]. split; [reflexivity|lia]. Qed.

(** C1, amended: for a product P that fixture access resolves, a size and a
    quantity q > 0 that a double holds, [addToCart] adds q to the quantity of
    the line for (P.id, size) where it stands when the cart has one (the first
    one, nothing appended): the quantity becomes what JSON reads back of the
    sum a double holds, which is n + q for a quantity n when n and n + q are
    integers below 2^53 in magnitude.  When the cart has no such line it
    appends one that snapshots P's name, price and image with quantity q.
    Two calls with quantity 1 on an empty cart leave one line of quantity 2. *)
Theorem addToCart_increments_or_appends (s : State) (P : Product.t) (size : string) :
  resolves s P -> size <> "" ->
  (forall (q : Z) (cart : Cart),
     0 < q -> safe_integer q -> persisted_cart s = Return cart ->
     exists s' cart',
       addToCart (JS.IdNumber (Product.id P)) (JS.Int q) size s = (Return tt, s') /\
       persisted_cart s' = Return cart' /\
       ((exists item, In item cart /\ line_for (JS.Int (Product.id P)) size item) ->
        exists pre item post,
          cart = pre ++ item :: post /\
          line_for (JS.Int (Product.id P)) size item /\
          (forall x, In x pre -> ~ line_for (JS.Int (Product.id P)) size x) /\
          cart' = pre ++ CartLine.set_quantity
                           (JS.JSON_number (JS.add (CartLine.quantity item) (JS.Int q))) item
                      :: post /\
          (forall n, CartLine.quantity item = JS.Int n ->
                     safe_integer n -> safe_integer (n + q) ->
                     cart' = pre ++ CartLine.set_quantity (JS.Int (n + q)) item :: post)) /\
       ((forall item, In item cart -> ~ line_for (JS.Int (Product.id P)) size item) ->
        cart' = cart ++ [snapshot P (JS.Int q) size])) /\
  (persisted_cart s = Return [] ->
   exists s1 s2,
     addToCart (JS.IdNumber (Product.id P)) (JS.Int 1) size s = (Return tt, s1) /\
     addToCart (JS.IdNumber (Product.id P)) (JS.Int 1) size s1 = (Return tt, s2) /\
     persisted_cart s2 = Return [snapshot P (JS.Int 2) size]).
Proof.
  intros HP Hsize. split.
  - intros q cart Hq _ H.
    destruct (addToCart_persisted _ P q size s cart HP Hsize Hq H)
      as (s' & Hrun & _ & [(pre & item & post & -> & Hitem & Hpre & Hcart)|[Hnone Hcart]]).
    + exists s'. eexists. split; [exact Hrun|]. split; [exact Hcart|]. split.
      * intros _. exists pre, item, post.
        split; [reflexivity|]. split; [exact Hitem|]. split; [exact Hpre|].
        split; [reflexivity|].
        intros n -> _ Hsum. now rewrite (add_safe n q Hsum).
      * intros Hnone. exfalso. apply (Hnone item); [|exact Hitem].
        apply in_or_app. right. now left.
    + exists s'. eexists. split; [exact Hrun|]. split; [exact Hcart|]. split.
      * intros (item & Hin & Hitem). exfalso. now apply (Hnone item).
      * reflexivity.
  - intros H.
    destruct (addToCart_persisted _ P 1 size s [] HP Hsize ltac:(lia) H)
      as (s1 & Hrun1 & Hpj & [(pre & item & post & E & _)|[_ Hcart1]]).
    { now destruct pre. }
    assert (HP1 : resolves s1 P) by now apply (resolves_ext s).
    destruct (addToCart_persisted _ P 1 size s1 _ HP1 Hsize ltac:(lia) Hcart1)
      as (s2 & Hrun2 & _ & [(pre & item & post & E & _ & _ & Hcart2)|[Hnone _]]).
    + exists s1, s2. repeat split; auto.
      destruct pre as [|? [|? ?]]; try discriminate E.
      cbn in E. injection E as <- <-. exact Hcart2.
    + exfalso. apply (Hnone (snapshot P (JS.Int 1) size)); [now left|].
      now split.
Qed.

Lemma addToCart_increments_or_appends_witness :
  (forall (q : Z) (cart : Cart),
     0 < q -> safe_integer q -> persisted_cart (shop None) = Return cart ->
     exists s' cart',
       addToCart (JS.IdNumber 42) (JS.Int q) "M" (shop None) = (Return tt, s') /\
       persisted_cart s' = Return cart' /\
       ((exists item, In item cart /\ line_for (JS.Int 42) "M" item) ->
        exists pre item post,
          cart = pre ++ item :: post /\
          line_for (JS.Int 42) "M" item /\
          (forall x, In x pre -> ~ line_for (JS.Int 42) "M" x) /\
          cart' = pre ++ CartLine.set_quantity
                           (JS.JSON_number (JS.add (CartLine.quantity item) (JS.Int q))) item
                      :: post /\
          (forall n, CartLine.quantity item = JS.Int n ->
                     safe_integer n -> safe_integer (n + q) ->
                     cart' = pre ++ CartLine.set_quantity (JS.Int (n + q)) item :: post)) /\
       ((forall item, In item cart -> ~ line_for (JS.Int 42) "M" item) ->
        cart' = cart ++ [snapshot tee (JS.Int q) "M"])) /\
  (persisted_cart (shop None) = Return [] ->
   exists s1 s2,
     addToCart (JS.IdNumber 42) (JS.Int 1) "M" (shop None) = (Return tt, s1) /\
     addToCart (JS.IdNumber 42) (JS.Int 1) "M" s1 = (Return tt, s2) /\
     persisted_cart s2 = Return [snapshot tee (JS.Int 2) "M"]).
Proof.
  apply (addToCart_increments_or_appends (shop None) tee "M").
  - reflexivity.
  - discriminate.
Defined.

(** C10: whatever cart is stored, also one with several lines for the same
    (product id, size), [removeFromCart] leaves the lines that are not for
    (parseInt productId, size), all of them and in their order, and no line
    that is. *)
Theorem removeFromCart_removes_every_matching_line (s : State) (productId : JS.id_arg)
    (size : string) (cart : Cart) :
  persisted_cart s = Return cart ->
  exists s' cart',
    removeFromCart productId size s = (Return tt, s') /\
    persisted_cart s' = Return cart' /\
    (forall item, In item cart' -> ~ line_for (JS.parseInt productId) size item) /\
    cart' = filter (fun item => ~ line_for (JS.parseInt productId) size item) cart /\
    sublist cart' cart.
Proof.
  intros H.
  destruct (removeFromCart_run productId size s cart H) as (s' & Hrun & Hsaved).
  exists s'. eexists. split; [exact Hrun|]. split.
  { apply (saved_persisted _ _ _ Hsaved), round_trips_filter, (persisted_cart_round_trips s), H. }
  rewrite filter_line_for. split; [|split; [reflexivity|apply sublist_filter]].
  intros item Hin. apply list_elem_of_In, list_elem_of_filter in Hin. tauto.
Qed.

Lemma removeFromCart_removes_every_matching_line_witness :
  exists s' cart',
    removeFromCart (JS.IdString "42") "M" (shop (Some (JS.JSON_stringify doubled_cart)))
      = (Return tt, s') /\
    persisted_cart s' = Return cart' /\
    (forall item, In item cart' -> ~ line_for (JS.Int 42) "M" item) /\
    cart' = filter (fun item => ~ line_for (JS.Int 42) "M" item) doubled_cart /\
    sublist cart' doubled_cart.
Proof.
  apply (removeFromCart_removes_every_matching_line
           (shop (Some (JS.JSON_stringify doubled_cart))) (JS.IdString "42") "M" doubled_cart).
  reflexivity.
Defined.

(** [updateCartQuantity] deletes one line, [removeFromCart] every line for
    the pair: they leave the same cart when the pair has one line at most. *)
Lemma updateCartQuantity_removes_the_only_line (s : State) (productId : JS.id_arg)
    (size : string) (n : Z) (cart : Cart) :
  persisted_cart s = Return cart ->
  at_most_one_line_for (JS.parseInt productId) size cart -> n <= 0 ->
  exists s1 s2 cart',
    updateCartQuantity productId size (JS.Int n) s = (Return tt, s1) /\
    removeFromCart productId size s = (Return tt, s2) /\
    persisted_cart s1 = Return cart' /\
    persisted_cart s2 = Return cart' /\
    cart' = filter (fun item => ~ line_for (JS.parseInt productId) size item) cart.
Proof.
  intros H Huniq Hn.
  pose proof (persisted_cart_round_trips _ _ H) as Hnan.
  destruct (updateCartQuantity_run productId size (JS.Int n) s cart H) as (s1 & Hrun1 & Hs1).
  destruct (removeFromCart_run productId size s cart H) as (s2 & Hrun2 & Hs2).
  exists s1, s2, (List.filter (fun item => negb (for_product (JS.parseInt productId) size item)) cart).
  split; [exact Hrun1|]. split; [exact Hrun2|].
  split; [|split; [|apply filter_line_for]].
  - destruct (JS.findIndex _ cart) as [i|] eqn:Hfind.
    + apply findIndex_Some in Hfind as (pre & item & post & -> & <- & Hitem & Hpre).
      apply for_product_line_for in Hitem.
      replace (JS.gt (JS.Int n) (JS.Int 0)) with false in Hs1
        by (symmetry; cbn; now apply Z.ltb_ge).
      rewrite splice1_middle in Hs1.
      rewrite filter_removes_the_line; auto.
      * apply (saved_persisted _ _ _ Hs1). now apply round_trips_middle with item.
      * now apply at_most_one_only with item.
    + rewrite filter_nothing.
      * rewrite <- H. apply persisted_cart_ext, Hs1.
      * intros y Hy. apply negb_true_iff. now apply (findIndex_None _ _ Hfind).
  - apply (saved_persisted _ _ _ Hs2), round_trips_filter, Hnan.
Qed.

(** C4: on a cart, which holds one line at most per product id and size,
    [updateCartQuantity] with a quantity n <= 0 and [removeFromCart] both
    return, raising nothing, and leave the same cart: the lines that are not
    for the pair, in their order. *)
Theorem updateCartQuantity_nonpositive_removes (s : State) (productId : JS.id_arg)
    (size : string) (n : Z) (cart : Cart) :
  persisted_cart s = Return cart -> unique_lines cart -> n <= 0 ->
  exists s1 s2 cart',
    updateCartQuantity productId size (JS.Int n) s = (Return tt, s1) /\
    removeFromCart productId size s = (Return tt, s2) /\
    persisted_cart s1 = Return cart' /\
    persisted_cart s2 = Return cart' /\
    cart' = filter (fun item => ~ line_for (JS.parseInt productId) size item) cart /\
    sublist cart' cart.
Proof.
  intros H Huniq Hn.
  destruct (updateCartQuantity_removes_the_only_line s productId size n cart H)
    as (s1 & s2 & cart' & Hrun1 & Hrun2 & H1 & H2 & Hcart'); [|exact Hn|].
  { now apply unique_lines_at_most_one. }
  exists s1, s2, cart'. repeat (split; [assumption|]).
  rewrite Hcart'. apply sublist_filter.
Qed.

Lemma updateCartQuantity_nonpositive_removes_witness :
  exists s1 s2 cart',
    updateCartQuantity (JS.IdString "42") "M" (JS.Int 0)
      (shop (Some (JS.JSON_stringify [snapshot tee (JS.Int 1) "M"; snapshot tee (JS.Int 3) "S"])))
      = (Return tt, s1) /\
    removeFromCart (JS.IdString "42") "M"
      (shop (Some (JS.JSON_stringify [snapshot tee (JS.Int 1) "M"; snapshot tee (JS.Int 3) "S"])))
      = (Return tt, s2) /\
    persisted_cart s1 = Return cart' /\
    persisted_cart s2 = Return cart' /\
    cart' = filter (fun item => ~ line_for (JS.Int 42) "M" item)
              [snapshot tee (JS.Int 1) "M"; snapshot tee (JS.Int 3) "S"] /\
    sublist cart' [snapshot tee (JS.Int 1) "M"; snapshot tee (JS.Int 3) "S"].
Proof.
  apply (updateCartQuantity_nonpositive_removes
           (shop (Some (JS.JSON_stringify [snapshot tee (JS.Int 1) "M"; snapshot tee (JS.Int 3) "S"])))
           (JS.IdString "42") "M" 0 [snapshot tee (JS.Int 1) "M"; snapshot tee (JS.Int 3) "S"]).
  - reflexivity.
  - unfold unique_lines. cbn. apply NoDup_cons. split; [|apply NoDup_singleton].
    intros Hin. apply list_elem_of_singleton in Hin. discriminate Hin.
  - lia.
Defined.

(** The three ways out of [addToCart] before it reads the cart. *)
Lemma addToCart_missing_size (productId : JS.id_arg) (quantity : JS.number) (size : string)
    (s : State) :
  JS.falsy size = true ->
  exists s', addToCart productId quantity size s = (Return tt, s') /\
             same_stores s s' /\ fails_with MissingSize s s'.
Proof.
  intros Hsize. unfold addToCart. rewrite Hsize.
  eexists. split; [reflexivity|]. split; [now constructor|now split].
Qed.

Lemma addToCart_nonpositive (productId : JS.id_arg) (quantity : JS.number) (size : string)
    (s : State) :
  JS.falsy size = false -> JS.le quantity (JS.Int 0) = true ->
  exists s', addToCart productId quantity size s = (Return tt, s') /\
             same_stores s s' /\ fails_with NonPositiveQuantity s s'.
Proof.
  intros Hsize Hq. unfold addToCart. rewrite Hsize, Hq.
  eexists. split; [reflexivity|]. split; [now constructor|now split].
Qed.

Lemma addToCart_not_found (productId : JS.id_arg) (quantity : JS.number) (size : string)
    (s : State) :
  JS.falsy size = false -> JS.le quantity (JS.Int 0) = false ->
  fst (fetchProductById productId s) = Return None ->
  exists s', addToCart productId quantity size s = (Return tt, s') /\
             same_stores s s' /\ fails_with ProductNotFound s s'.
Proof.
  intros Hsize Hq Hnone. unfold addToCart. rewrite Hsize, Hq.
  destruct (fetchProductById_same productId s) as (p & s0 & E & Hsame).
  rewrite E in Hnone. cbn in Hnone. injection Hnone as ->.
  rewrite (bind_Return _ _ _ _ _ E).
  eexists. split; [reflexivity|]. split.
  - eapply same_stores_trans; [exact Hsame|apply same_stores_trace].
  - split; [reflexivity|]. cbn. apply Hsame.
Qed.

(** C5: [addToCart] gives up with MissingSize on an empty size, with
    NonPositiveQuantity on a quantity <= 0 (the size being there), and with
    ProductNotFound when fixture access finds no product (size and quantity
    being accepted); whichever of the three conditions holds, it returns
    with one of the three reports and the stored cart is the text it was. *)
Theorem addToCart_failures (s : State) (productId : JS.id_arg) (quantity : JS.number)
    (size : string) :
  (size = "" ->
   exists s', addToCart productId quantity size s = (Return tt, s') /\
              fails_with MissingSize s s') /\
  (size <> "" -> JS.le quantity (JS.Int 0) = true ->
   exists s', addToCart productId quantity size s = (Return tt, s') /\
              fails_with NonPositiveQuantity s s') /\
  (size <> "" -> JS.le quantity (JS.Int 0) = false ->
   fst (fetchProductById productId s) = Return None ->
   exists s', addToCart productId quantity size s = (Return tt, s') /\
              fails_with ProductNotFound s s') /\
  (size = "" \/ JS.le quantity (JS.Int 0) = true \/
   fst (fetchProductById productId s) = Return None ->
   exists s' f, addToCart productId quantity size s = (Return tt, s') /\
                fails_with f s s' /\ persisted_cart s' = persisted_cart s).
Proof.
  split; [|split; [|split]].
  - intros ->.
    destruct (addToCart_missing_size productId quantity "" s eq_refl) as (s' & ? & _ & ?).
    now exists s'.
  - intros Hsize Hq. apply falsy_false in Hsize.
    destruct (addToCart_nonpositive productId quantity size s Hsize Hq) as (s' & ? & _ & ?).
    now exists s'.
  - intros Hsize Hq Hnone. apply falsy_false in Hsize.
    destruct (addToCart_not_found productId quantity size s Hsize Hq Hnone) as (s' & ? & _ & ?).
    now exists s'.
  - intros Hcase.
    destruct (JS.falsy size) eqn:Hsize.
    { destruct (addToCart_missing_size productId quantity size s Hsize) as (s' & ? & ? & Hf).
      exists s', MissingSize. repeat split; auto; try apply Hf.
      now apply persisted_cart_ext, Hf. }
    destruct (JS.le quantity (JS.Int 0)) eqn:Hq.
    { destruct (addToCart_nonpositive productId quantity size s Hsize Hq) as (s' & ? & ? & Hf).
      exists s', NonPositiveQuantity. repeat split; auto; try apply Hf.
      now apply persisted_cart_ext, Hf. }
    destruct Hcase as [->|[?|Hnone]]; try discriminate.
    destruct (addToCart_not_found productId quantity size s Hsize Hq Hnone) as (s' & ? & ? & Hf).
    exists s', ProductNotFound. repeat split; auto; try apply Hf.
    now apply persisted_cart_ext, Hf.
Qed.

Lemma addToCart_failures_witness :
  (exists s', addToCart (JS.IdNumber 42) (JS.Int 1) "" (shop (Some (JS.JSON_stringify doubled_cart)))
                = (Return tt, s') /\
              fails_with MissingSize (shop (Some (JS.JSON_stringify doubled_cart))) s') /\
  (exists s', addToCart (JS.IdNumber 42) (JS.Int 0) "M" (shop None) = (Return tt, s') /\
              fails_with NonPositiveQuantity (shop None) s') /\
  (exists s', addToCart (JS.IdString "7") (JS.Int 1) "M" (shop None) = (Return tt, s') /\
              fails_with ProductNotFound (shop None) s').
Proof.
  split; [|split].
  - apply (addToCart_failures (shop (Some (JS.JSON_stringify doubled_cart)))
             (JS.IdNumber 42) (JS.Int 1) ""). reflexivity.
  - apply (addToCart_failures (shop None) (JS.IdNumber 42) (JS.Int 0) "M");
      [discriminate|reflexivity].
  - apply (addToCart_failures (shop None) (JS.IdString "7") (JS.Int 1) "M");
      [discriminate|reflexivity|reflexivity].
Defined.

(** ** The cart invariant under the three mutations *)

Lemma cart_invariant_filter (f : CartLine.t -> bool) (cart : Cart) :
  cart_invariant cart -> cart_invariant (List.filter f cart).
Proof.
  unfold cart_invariant, unique_lines, positive_quantities.
  induction cart as [|item cart IH]; cbn; [auto|].
  rewrite NoDup_cons, Forall_cons. intros [[Hnotin Hnd] [Hq Hqs]].
  destruct (IH (conj Hnd Hqs)) as [IH1 IH2].
  destruct (f item); cbn; [|auto].
  rewrite NoDup_cons, Forall_cons. repeat split; auto.
  intros Hin. apply Hnotin.
  apply list_elem_of_In, in_map_iff in Hin as (x & Hx & Hin).
  apply List.filter_In in Hin as [Hin _].
  rewrite <- Hx. now apply list_elem_of_In, in_map.
Qed.

Lemma cart_invariant_delete (pre post : Cart) (x : CartLine.t) :
  cart_invariant (pre ++ x :: post) -> cart_invariant (pre ++ post).
Proof.
  unfold cart_invariant, unique_lines, positive_quantities.
  rewrite !map_app, !Forall_app. cbn [map]. rewrite Forall_cons, !NoDup_app, NoDup_cons.
  intros [(Hpre & Hdisj & _ & Hpost) (Hq1 & _ & Hq2)].
  repeat split; auto.
  intros k Hk Hk'. apply (Hdisj k Hk). now right.
Qed.

Lemma cart_invariant_set_quantity (pre post : Cart) (x : CartLine.t) (n : Z) :
  1 <= n ->
  cart_invariant (pre ++ x :: post) ->
  cart_invariant (pre ++ CartLine.set_quantity (JS.Int n) x :: post).
Proof.
  unfold cart_invariant, unique_lines, positive_quantities.
  rewrite !map_app, !Forall_app. cbn [map]. rewrite !Forall_cons.
  intros Hn [Hnd (Hq1 & _ & Hq2)].
  split; [exact Hnd|]. repeat split; auto. now exists n.
Qed.

Lemma cart_invariant_append (cart : Cart) (x : CartLine.t) (n : Z) :
  1 <= n -> CartLine.quantity x = JS.Int n ->
  (forall y, In y cart -> CartLine.key y <> CartLine.key x) ->
  cart_invariant cart -> cart_invariant (cart ++ [x]).
Proof.
  unfold cart_invariant, unique_lines, positive_quantities.
  rewrite map_app, Forall_app, NoDup_app. cbn [map].
  intros Hn Hx Hfresh [Hnd Hq]. repeat split; auto.
  - intros k Hk Hk'. apply list_elem_of_In in Hk, Hk'.
    apply in_map_iff in Hk as (y & <- & Hy). destruct Hk' as [Hk'|[]].
    now apply (Hfresh y).
  - apply NoDup_singleton.
  - constructor; [now exists n|constructor].
Qed.

(** With an integer quantity that a double holds, and no sum beyond such
    integers, [addToCart] keeps the invariant on every path. *)
Lemma addToCart_keeps_invariant (productId : JS.id_arg) (q : Z) (size : string)
    (s : State) (cart : Cart) :
  persisted_cart s = Return cart -> cart_invariant cart ->
  (forall item n, In item cart -> CartLine.quantity item = JS.Int n -> safe_integer (n + q)) ->
  exists s' cart',
    addToCart productId (JS.Int q) size s = (Return tt, s') /\
    persisted_cart s' = Return cart' /\ cart_invariant cart'.
Proof.
  intros H Hinv Hsafe.
  destruct (JS.falsy size) eqn:Hsize.
  { destruct (addToCart_missing_size productId (JS.Int q) size s Hsize) as (s' & ? & Hs & _).
    exists s', cart. repeat split; auto; try apply Hinv.
    rewrite <- H. apply persisted_cart_ext, Hs. }
  destruct (JS.le (JS.Int q) (JS.Int 0)) eqn:Hq.
  { destruct (addToCart_nonpositive productId (JS.Int q) size s Hsize Hq) as (s' & ? & Hs & _).
    exists s', cart. repeat split; auto; try apply Hinv.
    rewrite <- H. apply persisted_cart_ext, Hs. }
  destruct (fetchProductById_same productId s) as ([P|] & s0 & E & _).
  - assert (HP : fst (fetchProductById productId s) = Return (Some P)) by now rewrite E.
    assert (Hne : size <> "") by (intros ->; discriminate).
    assert (Hpos : 0 < q) by (cbn in Hq; now apply Z.leb_gt).
    destruct (addToCart_persisted productId P q size s cart HP Hne Hpos H)
      as (s' & Hrun & _ & [(pre & item & post & -> & Hitem & _ & Hcart)|[Hnone Hcart]]).
    + exists s'. eexists. split; [exact Hrun|]. split; [exact Hcart|].
      destruct Hinv as [Hu Hqs]. pose proof Hqs as Hqs'.
      unfold positive_quantities in Hqs'. rewrite Forall_app, Forall_cons in Hqs'.
      destruct Hqs' as (_ & (n & Hn & Hn1) & _).
      assert (Hsum : safe_integer (n + q)).
      { apply (Hsafe item n); [|exact Hn]. apply in_or_app. right. now left. }
      rewrite Hn, (add_safe n q Hsum). cbn [JS.JSON_number].
      apply cart_invariant_set_quantity; [lia|now split].
    + exists s'. eexists. split; [exact Hrun|]. split; [exact Hcart|].
      apply cart_invariant_append with q; [lia|reflexivity| |exact Hinv].
      intros y Hy Hkey. apply (Hnone y Hy). now apply line_for_key.
  - assert (HP : fst (fetchProductById productId s) = Return None) by now rewrite E.
    destruct (addToCart_not_found productId (JS.Int q) size s Hsize Hq HP) as (s' & ? & Hs & _).
    exists s', cart. repeat split; auto; try apply Hinv.
    rewrite <- H. apply persisted_cart_ext, Hs.
Qed.

Lemma removeFromCart_keeps_invariant (productId : JS.id_arg) (size : string)
    (s : State) (cart : Cart) :
  persisted_cart s = Return cart -> cart_invariant cart ->
  exists s' cart',
    removeFromCart productId size s = (Return tt, s') /\
    persisted_cart s' = Return cart' /\ cart_invariant cart'.
Proof.
  intros H Hinv.
  destruct (removeFromCart_run productId size s cart H) as (s' & Hrun & Hsaved).
  exists s'. eexists. split; [exact Hrun|]. split.
  - apply (saved_persisted _ _ _ Hsaved), round_trips_filter, (persisted_cart_round_trips s), H.
  - now apply cart_invariant_filter.
Qed.

(** [updateCartQuantity] keeps the invariant when the new quantity is an
    integer, or is not greater than 0, as NaN is not. *)
Lemma updateCartQuantity_keeps_invariant (productId : JS.id_arg) (size : string)
    (newQuantity : JS.number) (s : State) (cart : Cart) :
  persisted_cart s = Return cart -> cart_invariant cart ->
  (exists n, newQuantity = JS.Int n) \/ JS.gt newQuantity (JS.Int 0) = false ->
  exists s' cart',
    updateCartQuantity productId size newQuantity s = (Return tt, s') /\
    persisted_cart s' = Return cart' /\ cart_invariant cart'.
Proof.
  intros H Hinv Hnew.
  pose proof (persisted_cart_round_trips _ _ H) as Hnan.
  destruct (updateCartQuantity_run productId size newQuantity s cart H) as (s' & Hrun & Hs).
  destruct (JS.findIndex _ cart) as [i|] eqn:Hfind.
  - apply findIndex_Some in Hfind as (pre & item & post & -> & <- & _ & _).
    destruct (JS.gt newQuantity (JS.Int 0)) eqn:Hgt.
    + destruct Hnew as [(n & ->)|Hnew]; [|discriminate Hnew].
      cbn in Hgt. apply Z.ltb_lt in Hgt. rewrite update_middle in Hs.
      exists s'. eexists. split; [exact Hrun|]. split.
      * apply (saved_persisted _ _ _ Hs).
        apply positive_round_trips, cart_invariant_set_quantity; [lia|exact Hinv].
      * apply cart_invariant_set_quantity; [lia|exact Hinv].
    + rewrite splice1_middle in Hs.
      exists s'. eexists. split; [exact Hrun|]. split.
      * apply (saved_persisted _ _ _ Hs). now apply round_trips_middle with item.
      * now apply cart_invariant_delete with item.
  - exists s', cart. split; [exact Hrun|]. split; [|exact Hinv].
    rewrite <- H. apply persisted_cart_ext, Hs.
Qed.

(** C2 at the input that breaks it: Add to Cart clicked on the product page
    while the quantity field holds no number.  [parseInt] makes NaN of it, NaN
    is not <= 0, so [addToCart] goes on and stores a line whose quantity is
    no integer (JSON writes it as null), from a cart that met the invariant. *)
Theorem addToCart_NaN_breaks_invariant :
  JS.parseInt_string "" = JS.NaN /\
  persisted_cart product_page = Return [] /\
  cart_invariant [] /\
  addToCartButton_click "42" "M" "" product_page =
    addToCart (JS.IdString "42") JS.NaN "M" product_page /\
  exists s',
    addToCart (JS.IdString "42") JS.NaN "M" product_page = (Return tt, s') /\
    localStorage s' = Some (JS.JSON_stringify [snapshot tee JS.NaN "M"]) /\
    persisted_cart s' = Return [snapshot tee JS.Null "M"] /\
    ~ cart_invariant [snapshot tee JS.Null "M"].
Proof.
  split; [reflexivity|]. split; [reflexivity|]. split.
  { split; constructor. }
  split; [reflexivity|].
  exists (snd (addToCart (JS.IdString "42") JS.NaN "M" product_page)).
  split; [reflexivity|]. split; [reflexivity|]. split; [reflexivity|].
  intros [_ Hq]. apply Forall_cons in Hq as [(n & Hn & _) _]. discriminate Hn.
Qed.

(** ** The user directory *)

Lemma fetchUsers_loaded (s : State) :
  sessionUsers s <> [] -> fetchUsers s = (Return (sessionUsers s), s).
Proof.
  intros H. unfold fetchUsers, bind, gets; cbn.
  destruct (sessionUsers s); [congruence|reflexivity].
Qed.

Lemma fetchUsers_empty (s : State) :
  sessionUsers s = [] ->
  fetchUsers s =
  match users_json s with
  | Some users =>
      (Return users,
       set_sessionUsers users (set_trace (Fetch "data/users.json" :: trace s) s))
  | None =>
      (Return [],
       set_sessionUsers []
         (set_trace (ConsoleError "Could not fetch users:" :: Fetch "data/users.json" :: trace s) s))
  end.
Proof.
  destruct s as [pj uj doc ls ss su tr]. cbn. intros ->.
  destruct uj; reflexivity.
Qed.

Lemma fetchUsers_run (s : State) :
  exists users s', fetchUsers s = (Return users, s') /\ fetched users s s'.
Proof.
  destruct (sessionUsers s) as [|u us] eqn:E.
  - rewrite (fetchUsers_empty s E).
    destruct (users_json s); do 2 eexists; (split; [reflexivity|]); now constructor.
  - exists (u :: us), s. split; [|now constructor].
    rewrite <- E. apply fetchUsers_loaded. now rewrite E.
Qed.

Lemma directory_fetchUsers (s : State) (users : list User.t) :
  directory s = Return users ->
  exists s', fetchUsers s = (Return users, s') /\ fetched users s s'.
Proof.
  unfold directory. intros H. destruct (fetchUsers_run s) as (users' & s' & E & Hf).
  rewrite E in H. cbn in H. injection H as ->. now exists s'.
Qed.

Lemma directory_loaded (s : State) :
  sessionUsers s <> [] -> directory s = Return (sessionUsers s).
Proof. intros H. unfold directory. now rewrite fetchUsers_loaded. Qed.

(** The directory is the overlay when it holds a user, else the fixture as
    far as it loads. *)
Lemma directory_overlay_or_fixture (s : State) :
  directory s =
  Return match sessionUsers s with
         | [] => default [] (users_json s)
         | _ :: _ => sessionUsers s
         end.
Proof.
  unfold directory. destruct (sessionUsers s) as [|u us] eqn:E.
  - rewrite (fetchUsers_empty s E). now destruct (users_json s).
  - rewrite fetchUsers_loaded; rewrite E; [reflexivity|discriminate].
Qed.

Lemma find_email_None (email : string) (users : list User.t) :
  find (fun u => String.eqb (User.email u) email) users = None <->
  forall u, In u users -> User.email u <> email.
Proof.
  split.
  - intros H u Hu Heq. apply (find_none _ _ H) in Hu. apply String.eqb_neq in Hu. tauto.
  - intros H. induction users as [|u users IH]; [reflexivity|]. cbn.
    destruct (String.eqb_spec (User.email u) email) as [Heq|_].
    + exfalso. apply (H u); [now left|exact Heq].
    + apply IH. intros x Hx. apply H. now right.
Qed.

Lemma find_email_Some (email : string) (users : list User.t) (u : User.t) :
  find (fun u => String.eqb (User.email u) email) users = Some u <->
  first_with_email email users u.
Proof.
  unfold first_with_email. split.
  - induction users as [|x users IH]; cbn; [discriminate|].
    destruct (String.eqb_spec (User.email x) email) as [Heq|Hne].
    + intros [= <-]. exists [], users. split; [reflexivity|]. split; [exact Heq|]. intros ? [].
    + intros H. destruct (IH H) as (pre & post & -> & He & Hpre).
      exists (x :: pre), post. split; [reflexivity|]. split; [exact He|].
      intros y [<-|Hy]; auto.
  - intros (pre & post & -> & He & Hpre).
    induction pre as [|x pre IH]; cbn.
    + now rewrite (proj2 (String.eqb_eq _ _) He).
    + rewrite (proj2 (String.eqb_neq _ _) (Hpre x (or_introl eq_refl))).
      apply IH. intros y Hy. apply Hpre. now right.
Qed.

(** The id [registerUser] gives: one more than the greatest id. *)
Lemma fold_left_max (l : list Z) (a : Z) : is_max (fold_left Z.max l a) (a :: l).
Proof.
  revert a. induction l as [|x l IH]; intros a; cbn [fold_left].
  - split; [now left|]. intros y [<-|[]]. lia.
  - destruct (IH (Z.max a x)) as [Hin Hle]. split.
    + destruct Hin as [Hin|Hin]; [|now right; right].
      rewrite <- Hin. destruct (Z.max_spec a x) as [[_ ->]|[_ ->]]; [right; now left|now left].
    + pose proof (Hle (Z.max a x) (or_introl eq_refl)) as Hmax.
      intros y [Hy|[Hy|Hy]]; [lia|lia|].
      apply Hle. now right.
Qed.

Lemma is_max_unique (l : list Z) (m m' : Z) : is_max m l -> is_max m' l -> m = m'.
Proof. intros [Hin Hle] [Hin' Hle']. specialize (Hle _ Hin'). specialize (Hle' _ Hin). lia. Qed.

Lemma newId_empty : newId [] = 1.
Proof. reflexivity. Qed.

Lemma newId_round (users : list User.t) (m : Z) :
  is_max m (map User.id users) -> newId users = JS.round (m + 1).
Proof.
  unfold newId. destruct (map User.id users) as [|a l]; [intros [[] _]|].
  intros H. do 2 f_equal. eapply is_max_unique; [apply fold_left_max|exact H].
Qed.

Lemma newId_max (users : list User.t) (m : Z) :
  is_max m (map User.id users) -> safe_integer m -> newId users = m + 1.
Proof.
  unfold safe_integer. intros H Hm. rewrite (newId_round users m H).
  apply round_safe. lia.
Qed.

Lemma is_max_exists (users : list User.t) :
  users <> [] -> exists m, is_max m (map User.id users).
Proof.
  destruct users as [|u users]; [congruence|]. intros _.
  eexists. cbn [map]. apply fold_left_max.
Qed.

Lemma registerUser_success_run (name email password : string) (s : State)
    (users : list User.t) :
  directory s = Return users ->
  find (fun u => String.eqb (User.email u) email) users = None ->
  exists s',
    registerUser name email password s = (Return true, s') /\
    sessionUsers s' = users ++ [new_user users name email password] /\
    sessionStorage s' = Some (JS.JSON_stringify (new_user users name email password)) /\
    users_json s' = users_json s /\
    products_json s' = products_json s /\
    localStorage s' = localStorage s.
Proof.
  intros Hdir Hfind.
  destruct (directory_fetchUsers s users Hdir) as (s1 & Hs1 & Hf).
  unfold registerUser. rewrite (bind_Return _ _ _ _ _ Hs1), Hfind.
  fold (new_user users name email password).
  destruct Hf. destruct s1 as [pj uj doc ls ss su tr]. cbn in *. subst.
  eexists. split; [reflexivity|]. cbn. auto.
Qed.

Lemma registerUser_duplicate_run (name email password : string) (s : State)
    (users : list User.t) (u : User.t) :
  directory s = Return users ->
  find (fun u => String.eqb (User.email u) email) users = Some u ->
  exists s1,
    fetchUsers s = (Return users, s1) /\ fetched users s s1 /\
    registerUser name email password s =
      (Return false,
       set_trace (Alert "Email already exists. Please use a different email." :: trace s1) s1).
Proof.
  intros Hdir Hfind.
  destruct (directory_fetchUsers s users Hdir) as (s1 & Hs1 & Hf).
  exists s1. split; [exact Hs1|]. split; [exact Hf|].
  unfold registerUser. rewrite (bind_Return _ _ _ _ _ Hs1), Hfind. reflexivity.
Qed.

Lemma registerUser_true (name email password : string) (s : State) (users : list User.t) :
  directory s = Return users ->
  fst (registerUser name email password s) = Return true ->
  find (fun u => String.eqb (User.email u) email) users = None.
Proof.
  intros Hdir Htrue.
  destruct (find _ users) as [u|] eqn:Hfind; [|reflexivity].
  destruct (registerUser_duplicate_run name email password s users u Hdir Hfind)
    as (s1 & _ & _ & E).
  rewrite E in Htrue. discriminate.
Qed.

Lemma current_user_written (s : State) (u : User.t) :
  sessionStorage s = Some (JS.JSON_stringify u) -> current_user s = Return (Some u).
Proof. unfold current_user, getCurrentUser, bind, gets; cbn. now intros ->. Qed.

(** *** The overlay and the fixture *)


Lemma fetchUsers_seeded (s : State) (users : list User.t) (s' : State) :
  seeded s -> fetchUsers s = (Return users, s') ->
  exists registered, users = default [] (users_json s) ++ registered.
Proof.
  intros Hseeded Hrun. destruct (sessionUsers s) as [|u us] eqn:E.
  - rewrite (fetchUsers_empty s E) in Hrun. exists [].
    destruct (users_json s); injection Hrun as Hu _; rewrite <- Hu; cbn;
      now rewrite ?app_nil_r.
  - rewrite fetchUsers_loaded in Hrun by now rewrite E.
    injection Hrun as Hu _. rewrite <- Hu.
    destruct Hseeded as [Hnil|Hreg]; [congruence|exact Hreg].
Qed.

Lemma registerUser_seeded (name email password : string) (s : State) :
  seeded s -> seeded (snd (registerUser name email password s)).
Proof.
  intros Hseeded. destruct (fetchUsers_run s) as (users & s1 & Hs1 & Hf).
  destruct (fetchUsers_seeded s users s1 Hseeded Hs1) as (registered & Hreg).
  assert (Hdir : directory s = Return users) by (unfold directory; now rewrite Hs1).
  destruct (find (fun u => String.eqb (User.email u) email) users) as [u|] eqn:Hfind.
  - destruct (registerUser_duplicate_run name email password s users u Hdir Hfind)
      as (s1' & Hs1' & Hf' & ->).
    right. exists registered. cbn.
    replace (sessionUsers s1') with users by (symmetry; apply Hf').
    replace (users_json s1') with (users_json s) by (symmetry; apply Hf'). exact Hreg.
  - destruct (registerUser_success_run name email password s users Hdir Hfind)
      as (s' & -> & Hsu & _ & Huj & _).
    right. exists (registered ++ [new_user users name email password]). cbn.
    rewrite Hsu, Huj, app_assoc. f_equal. exact Hreg.
Qed.

Lemma loginUser_seeded (email password : string) (s : State) :
  seeded s -> seeded (snd (loginUser email password s)).
Proof.
  intros Hseeded. destruct (fetchUsers_run s) as (users & s1 & Hs1 & Hf).
  destruct (fetchUsers_seeded s users s1 Hseeded Hs1) as (registered & Hreg).
  assert (Hs1' : seeded s1).
  { right. exists registered.
    replace (sessionUsers s1) with users by (symmetry; apply Hf).
    replace (users_json s1) with (users_json s) by (symmetry; apply Hf). exact Hreg. }
  unfold loginUser. rewrite (bind_Return _ _ _ _ _ Hs1).
  destruct (find _ users) as [u|]; [destruct (String.eqb _ password)|];
    destruct s1; exact Hs1'.
Qed.

(** In such a state every user of the fixture is in the directory, so that
    an email of the fixture is refused by [registerUser]. *)
Lemma seeded_directory_fixture (s : State) (fixture users : list User.t) (u : User.t) :
  seeded s -> users_json s = Some fixture -> directory s = Return users ->
  In u fixture -> In u users.
Proof.
  intros Hseeded Hjson Hdir Hin.
  destruct (directory_fetchUsers s users Hdir) as (s1 & Hs1 & _).
  destruct (fetchUsers_seeded s users s1 Hseeded Hs1) as (registered & ->).
  rewrite Hjson. cbn. apply in_or_app. now left.
Qed.

(** ** The claims about users *)




(** C7: registering with an email that some user of the directory has
    returns false after the email alert; the directory is the one it was (no
    user appended, same size), and so are the session and the fixture. *)
Theorem registerUser_duplicate_email (s : State) (name email password : string)
    (users : list User.t) (u : User.t) :
  directory s = Return users -> In u users -> User.email u = email ->
  exists s',
    registerUser name email password s = (Return false, s') /\
    head (trace s') = Some (Alert "Email already exists. Please use a different email.") /\
    directory s' = Return users /\
    sessionStorage s' = sessionStorage s /\
    users_json s' = users_json s.
Proof.
  intros Hdir Hin Hemail.
  destruct (find (fun u => String.eqb (User.email u) email) users) as [v|] eqn:Hfind.
  - destruct (registerUser_duplicate_run name email password s users v Hdir Hfind)
      as (s1 & Hs1 & Hf & Hrun).
    eexists. split; [exact Hrun|]. split; [reflexivity|]. cbn.
    repeat split; try apply Hf.
    assert (Hsu : sessionUsers s1 = users) by apply Hf.
    unfold directory. rewrite fetchUsers_loaded; cbn; rewrite Hsu; [reflexivity|].
    intros ->. destruct Hin.
  - exfalso. now apply (proj1 (find_email_None email users) Hfind u).
Qed.

Lemma registerUser_duplicate_email_witness :
  exists s',
    registerUser "Mallory" "alice@example.com" "guess" (shop None) = (Return false, s') /\
    head (trace s') = Some (Alert "Email already exists. Please use a different email.") /\
    directory s' = Return [alice] /\
    sessionStorage s' = sessionStorage (shop None) /\
    users_json s' = users_json (shop None).
Proof.
  apply (registerUser_duplicate_email (shop None) "Mallory" "alice@example.com" "guess"
           [alice] alice).
  - reflexivity.
  - now left.
  - reflexivity.
Defined.

(** C8: every login that fails, be it that no user has the email or that the
    first user with the email has another password, returns false and leaves
    one and the same state, whose last event is the one alert and whose
    session is the one it was; a login with the email and the password of a
    user returns true and makes that user the current session. *)
Theorem loginUser_outcomes (s : State) (users : list User.t) :
  directory s = Return users ->
  exists s_failed,
    head (trace s_failed) = Some (Alert "Invalid email or password.") /\
    sessionStorage s_failed = sessionStorage s /\
    (forall email password,
       (forall u, In u users -> User.email u <> email) ->
       loginUser email password s = (Return false, s_failed)) /\
    (forall email password u,
       first_with_email email users u -> User.password u <> password ->
       loginUser email password s = (Return false, s_failed)) /\
    (forall email password u,
       first_with_email email users u -> User.password u = password ->
       exists s', loginUser email password s = (Return true, s') /\
                  current_user s' = Return (Some u)).
Proof.
  intros Hdir. destruct (directory_fetchUsers s users Hdir) as (s1 & Hs1 & Hf).
  exists (set_trace (Alert "Invalid email or password." :: trace s1) s1).
  split; [reflexivity|]. split; [apply Hf|]. split; [|split].
  - intros email password Hnone. apply find_email_None in Hnone.
    unfold loginUser. rewrite (bind_Return _ _ _ _ _ Hs1), Hnone. reflexivity.
  - intros email password u Hu Hpw. apply find_email_Some in Hu.
    unfold loginUser. rewrite (bind_Return _ _ _ _ _ Hs1), Hu.
    rewrite (proj2 (String.eqb_neq _ _) Hpw). reflexivity.
  - intros email password u Hu Hpw. apply find_email_Some in Hu.
    unfold loginUser. rewrite (bind_Return _ _ _ _ _ Hs1), Hu.
    rewrite (proj2 (String.eqb_eq _ _) Hpw).
    eexists. split; [reflexivity|]. reflexivity.
Qed.

Lemma loginUser_outcomes_witness :
  exists s_failed,
    head (trace s_failed) = Some (Alert "Invalid email or password.") /\
    sessionStorage s_failed = sessionStorage (shop None) /\
    loginUser "nobody@example.com" "wonderland" (shop None) = (Return false, s_failed) /\
    loginUser "alice@example.com" "Wonderland" (shop None) = (Return false, s_failed) /\
    exists s', loginUser "alice@example.com" "wonderland" (shop None) = (Return true, s') /\
               current_user s' = Return (Some alice).
Proof.
  destruct (loginUser_outcomes (shop None) [alice] eq_refl)
    as (s_failed & Htrace & Hsession & Hunknown & Hwrong & Hright).
  exists s_failed. split; [exact Htrace|]. split; [exact Hsession|]. split; [|split].
  - apply Hunknown. intros u [<-|[]]. discriminate.
  - apply (Hwrong _ _ alice); [|discriminate].
    exists [], []. split; [reflexivity|]. split; [reflexivity|]. intros ? [].
  - apply (Hright _ _ alice); [|reflexivity].
    exists [], []. split; [reflexivity|]. split; [reflexivity|]. intros ? [].
Defined.




(** ** The claims about reading the stores *)

(** C6, as stated, fails on a stored text that is not JSON: [getCart] and
    [getCurrentUser] throw the SyntaxError of [JSON.parse] to their caller. *)
Lemma getCart_getCurrentUser_throw_on_corrupt_text :
  getCart corrupt_cart = (Throw JS.SyntaxError, corrupt_cart) /\
  getCurrentUser corrupt_session = (Throw JS.SyntaxError, corrupt_session).
Proof. split; reflexivity. Qed.

(** C6, amended: [getCart] returns the stored cart when the stored text is
    the JSON of one, and the empty cart when nothing or the empty text is
    stored; [getCurrentUser] returns the stored user, and none when nothing or
    the empty text is stored; on a text that is not empty and is not JSON
    both throw SyntaxError.  The state is left as it was. *)
Theorem getCart_getCurrentUser_read_the_stores (s : State) :
  (localStorage s = None -> getCart s = (Return [], s)) /\
  (forall cart, localStorage s = Some (JS.JSON_stringify cart) ->
                getCart s = (Return (JSON_reparse cart), s) /\
                (round_trips cart -> getCart s = (Return cart, s))) /\
  (forall raw (not_JSON : JS.is_JSON raw = false),
     localStorage s = Some (JS.Raw raw not_JSON) ->
     (raw = "" -> getCart s = (Return [], s)) /\
     (raw <> "" -> getCart s = (Throw JS.SyntaxError, s))) /\
  (sessionStorage s = None -> getCurrentUser s = (Return None, s)) /\
  (forall user, sessionStorage s = Some (JS.JSON_stringify user) ->
                getCurrentUser s = (Return (Some user), s)) /\
  (forall raw (not_JSON : JS.is_JSON raw = false),
     sessionStorage s = Some (JS.Raw raw not_JSON) ->
     (raw = "" -> getCurrentUser s = (Return None, s)) /\
     (raw <> "" -> getCurrentUser s = (Throw JS.SyntaxError, s))).
Proof.
  assert (Hcart : forall t, localStorage s = t ->
            getCart s = match t with
                        | Some t => if JS.truthy t then JSON_parse JSON_reparse t s
                                    else (Return [], s)
                        | None => (Return [], s)
                        end).
  { intros t <-. unfold getCart, bind, gets; cbn.
    destruct (localStorage s) as [t|]; [destruct (JS.truthy t)|]; reflexivity. }
  assert (Huser : forall t, sessionStorage s = t ->
            getCurrentUser s = match t with
                               | Some (JS.JSON_stringify user) => (Return (Some user), s)
                               | Some (JS.Raw raw _) =>
                                   if JS.falsy raw then (Return None, s)
                                   else (Throw JS.SyntaxError, s)
                               | None => (Return None, s)
                               end).
  { intros t <-. unfold getCurrentUser, bind, gets; cbn.
    destruct (sessionStorage s) as [[user|raw not_JSON]|]; cbn; try reflexivity.
    destruct (JS.falsy raw); reflexivity. }
  split; [intros H; now rewrite (Hcart _ H)|].
  split.
  { intros cart H. rewrite (Hcart _ H). cbn. split; [reflexivity|].
    intros Hnan. now rewrite JSON_reparse_id. }
  split.
  { intros raw not_JSON H. rewrite (Hcart _ H). split.
    - now intros ->.
    - intros Hraw. destruct raw; [congruence|reflexivity]. }
  split; [intros H; now rewrite (Huser _ H)|].
  split; [intros user H; now rewrite (Huser _ H)|].
  intros raw not_JSON H. rewrite (Huser _ H). split.
  - now intros ->.
  - intros Hraw. destruct raw; [congruence|reflexivity].
Qed.

Lemma getCart_getCurrentUser_read_the_stores_witness :
  getCart (shop (Some (JS.JSON_stringify doubled_cart))) =
    (Return doubled_cart, shop (Some (JS.JSON_stringify doubled_cart))) /\
  getCart (shop None) = (Return [], shop None) /\
  getCart corrupt_cart = (Throw JS.SyntaxError, corrupt_cart) /\
  getCurrentUser (shop None) = (Return None, shop None) /\
  getCurrentUser corrupt_session = (Throw JS.SyntaxError, corrupt_session).
Proof.
  destruct (getCart_getCurrentUser_read_the_stores (shop (Some (JS.JSON_stringify doubled_cart))))
    as (_ & Hstored & _).
  destruct (getCart_getCurrentUser_read_the_stores (shop None))
    as (Hnone & _ & _ & Hnobody & _).
  destruct (getCart_getCurrentUser_read_the_stores corrupt_cart)
    as (_ & _ & Hcorrupt & _).
  destruct (getCart_getCurrentUser_read_the_stores corrupt_session)
    as (_ & _ & _ & _ & _ & Hcorrupt').
  split; [|split; [|split; [|split]]].
  - apply (Hstored doubled_cart); [reflexivity|]. repeat constructor.
  - apply Hnone. reflexivity.
  - apply (Hcorrupt "{not json" eq_refl); [reflexivity|discriminate].
  - apply Hnobody. reflexivity.
  - apply (Hcorrupt' "{not json" eq_refl); [reflexivity|discriminate].
Defined.

(** ** Runs on the example states *)

Example parseInt_digits : JS.parseInt (JS.IdString "42") = JS.Int 42.
Proof. reflexivity. Qed.

Example parseInt_prefix : JS.parseInt (JS.IdString "  -7px") = JS.Int (-7).
Proof. reflexivity. Qed.

Example parseInt_no_digits : JS.parseInt (JS.IdString "abc") = JS.NaN.
Proof. reflexivity. Qed.

(** A no-break space (U+00A0, two bytes) before the digits is skipped. *)
Example parseInt_no_break_space :
  JS.parseInt_string (String (ascii_of_nat 194) (String (ascii_of_nat 160) "42")) = JS.Int 42.
Proof. reflexivity. Qed.

(** Beyond 2^53 a double holds every second integer, then every fourth. *)
Example parseInt_rounds :
  JS.parseInt_string "9007199254740993" = JS.Int 9007199254740992 /\
  JS.parseInt_string "9007199254740995" = JS.Int 9007199254740996 /\
  JS.parseInt_string "-18014398509481987" = JS.Int (-18014398509481988).
Proof. repeat split. Qed.

(** The greatest double is 2^1024 - 2^971; half a step beyond it the
    nearest double is an infinity. *)
Example of_Z_overflows :
  JS.of_Z (2 ^ 1024 - 2 ^ 971) = JS.Int (2 ^ 1024 - 2 ^ 971) /\
  JS.of_Z (2 ^ 1024 - 2 ^ 970 - 1) = JS.Int (2 ^ 1024 - 2 ^ 971) /\
  JS.of_Z (2 ^ 1024 - 2 ^ 970) = JS.Infinity false /\
  JS.of_Z (- 2 ^ 1024) = JS.Infinity true.
Proof. repeat split; vm_compute; reflexivity. Qed.

(** Texts that are JSON, and texts that are not. *)
Example JSON_texts :
  map JS.is_JSON ["null"; "[]"; " [1, 2.50, -3e+2 ] "; "{}"; "true"; "0"]
    = [true; true; true; true; true; true] /\
  map JS.is_JSON [""; " "; "{not json"; "[1,]"; "01"; "nul"; "undefined"; "1."; "[1 2]"]
    = [false; false; false; false; false; false; false; false; false].
Proof. split; vm_compute; reflexivity. Qed.

(** An empty cart, then addToCart(42, 2, "M"): one line of quantity 2, and
    the badge shows 2. *)
Example add_two_tees :
  persisted_cart (snd (addToCart (JS.IdNumber 42) (JS.Int 2) "M" (shop None)))
    = Return [snapshot tee (JS.Int 2) "M"] /\
  In (CartIconCount (JS.Int 2))
     (trace (snd (addToCart (JS.IdNumber 42) (JS.Int 2) "M" (shop None)))).
Proof. split; [reflexivity|]. right. left. reflexivity. Qed.

(** Then updateQuantity(42, "M", 5): the quantity becomes 5. *)
Example update_to_five :
  persisted_cart
    (snd (updateCartQuantity (JS.IdString "42") "M" (JS.Int 5)
            (shop (Some (JS.JSON_stringify [snapshot tee (JS.Int 2) "M"])))))
    = Return [snapshot tee (JS.Int 5) "M"].
Proof. reflexivity. Qed.

(** Two sizes of one product are two lines. *)
Example two_sizes_two_lines :
  persisted_cart
    (snd (addToCart (JS.IdNumber 42) (JS.Int 1) "S"
            (snd (addToCart (JS.IdNumber 42) (JS.Int 1) "M" (shop None)))))
    = Return [snapshot tee (JS.Int 1) "M"; snapshot tee (JS.Int 1) "S"].
Proof. reflexivity. Qed.

(** Removing the last line leaves an empty cart stored. *)
Example remove_last_line :
  persisted_cart
    (snd (removeCartItemButton_click "42" "M"
            (shop (Some (JS.JSON_stringify [snapshot tee (JS.Int 2) "M"])))))
    = Return [].
Proof. reflexivity. Qed.

(** A quantity field emptied on the cart page removes the line. *)
Example quantity_field_emptied :
  persisted_cart
    (snd (cartItemQuantity_change "42" "M" ""
            (shop (Some (JS.JSON_stringify [snapshot tee (JS.Int 2) "M"])))))
    = Return [].
Proof. reflexivity. Qed.

(** A quantity no double holds becomes an infinity, which JSON writes as
    null: the line is kept with no quantity. *)
Example quantity_beyond_the_doubles :
  persisted_cart
    (snd (updateCartQuantity (JS.IdString "42") "M" (JS.of_Z (2 ^ 1024))
            (shop (Some (JS.JSON_stringify [snapshot tee (JS.Int 2) "M"])))))
    = Return [snapshot tee JS.Null "M"].
Proof. vm_compute. reflexivity. Qed.

(** Logging out with no session leaves the session store empty. *)
Example logout_without_session :
  sessionStorage (snd (logoutUser (shop None))) = None.
Proof. reflexivity. Qed.

(** An email that differs in case only is no duplicate. *)
Example register_other_case :
  fst (registerUser "Alice" "Alice@example.com" "looking-glass" (shop None)) = Return true.
Proof. reflexivity. Qed.

(** With a cart text that is not JSON the cart operations throw, and the
    text stays. *)
Example operations_throw_on_corrupt_cart :
  addToCart (JS.IdNumber 42) (JS.Int 1) "M" corrupt_cart
    = (Throw JS.SyntaxError, set_trace [Fetch "data/products.json"] corrupt_cart) /\
  removeFromCart (JS.IdString "42") "M" corrupt_cart = (Throw JS.SyntaxError, corrupt_cart) /\
  updateCartQuantity (JS.IdString "42") "M" (JS.Int 0) corrupt_cart
    = (Throw JS.SyntaxError, corrupt_cart).
Proof. repeat split. Qed.

(** ** An id written as text and read back *)

Lemma digits_uint (d : Decimal.uint) (acc : Z) :
  JS.digits (NilEmpty.string_of_uint d) (Some acc) = Some (uint_value d acc).
Proof.
  revert acc. induction d; intros acc; cbn [NilEmpty.string_of_uint uint_value];
    [reflexivity|..]; cbn [JS.digits];
    match goal with
    | |- context [JS.digit ?c] =>
        let v := eval vm_compute in (JS.digit c) in change (JS.digit c) with v
    end; cbn [default]; apply IHd.
Qed.

Lemma uint_value_acc (d : Decimal.uint) (acc : positive) :
  Z.pos (Pos.of_uint_acc d acc) = uint_value d (Z.pos acc).
Proof.
  revert acc. induction d; intros acc; cbn [Pos.of_uint_acc uint_value];
    [reflexivity|..]; rewrite IHd; f_equal; lia.
Qed.

Lemma uint_value_of_uint (d : Decimal.uint) : uint_value d 0 = Z.of_N (Pos.of_uint d).
Proof.
  induction d; cbn [Pos.of_uint uint_value]; [reflexivity|exact IHd|..];
    cbn [Z.of_N]; rewrite uint_value_acc; reflexivity.
Qed.

Lemma digits_first (d : Decimal.uint) :
  d <> Decimal.Nil ->
  JS.digits (NilEmpty.string_of_uint d) None = Some (Z.of_N (Pos.of_uint d)).
Proof.
  intros Hd. rewrite <- uint_value_of_uint.
  destruct d; [congruence|..]; cbn [NilEmpty.string_of_uint uint_value JS.digits];
    match goal with
    | |- context [JS.digit ?c] =>
        let v := eval vm_compute in (JS.digit c) in change (JS.digit c) with v
    end; cbn [default]; apply digits_uint.
Qed.

Lemma skip_white_space_ascii (c : ascii) (r : string) :
  JS.is_white_space c = false -> (nat_of_ascii c < 128)%nat ->
  JS.skip_white_space (String c r) = String c r.
Proof.
  intros Hws Hc.
  assert (H2 : forall c2, JS.is_white_space2 c c2 = false).
  { intros c2. unfold JS.is_white_space2.
    destruct (Nat.eqb_spec (nat_of_ascii c) 194); [lia|reflexivity]. }
  assert (H3 : forall c2 c3, JS.is_white_space3 c c2 c3 = false).
  { intros c2 c3. unfold JS.is_white_space3. cbv zeta.
    repeat match goal with
           | |- context [Nat.eqb (nat_of_ascii c) ?k] =>
               destruct (Nat.eqb_spec (nat_of_ascii c) k); [lia|]
           end.
    reflexivity. }
  cbn [JS.skip_white_space]. rewrite Hws.
  destruct r as [|c2 [|c3 r3]]; [reflexivity|now rewrite H2|now rewrite H2, H3].
Qed.

(** [parseInt(String(n), 10)] is the double nearest to [n], which is [n]
    for an integer that a double holds. *)
Lemma parseInt_Number_toString_of_Z (n : Z) :
  JS.parseInt_string (Number_toString n) = JS.of_Z n.
Proof.
  destruct n as [|p|p]; [reflexivity|..]; unfold Number_toString; cbn [Z.to_int NilZero.string_of_int];
    pose proof (Unsigned.to_uint_nonnil p) as Hnil;
    pose proof (digits_first _ Hnil) as Hdigits;
    rewrite Unsigned.of_to in Hdigits; cbn [Z.of_N] in Hdigits;
    unfold NilZero.string_of_uint in *;
    destruct (Pos.to_uint p); try congruence;
    unfold JS.parseInt_string; cbn [NilEmpty.string_of_uint] in *;
    (rewrite skip_white_space_ascii by (vm_compute; (reflexivity || lia)));
    cbv iota beta; rewrite Hdigits; reflexivity.
Qed.

Lemma parseInt_Number_toString (n : Z) :
  safe_integer n -> JS.parseInt_string (Number_toString n) = JS.Int n.
Proof.
  unfold safe_integer. intros Hn. rewrite parseInt_Number_toString_of_Z.
  apply of_Z_safe. lia.
Qed.

(** ** Further runs: the trace of the cart operations *)

Lemma has_badge_getElementById (s : State) :
  has_badge s <-> existsb (String.eqb "cart-item-count") (document s) = true.
Proof.
  unfold has_badge. rewrite existsb_exists. split.
  - intros H. exists "cart-item-count". split; [exact H|apply String.eqb_refl].
  - intros (x & Hx & Heq). apply String.eqb_eq in Heq. now subst.
Qed.

Lemma saveCart_trace (cart : Cart) (s : State) :
  exists s',
    saveCart cart s = (Return tt, s') /\ saved cart s s' /\
    trace s' =
      if existsb (String.eqb "cart-item-count") (document s)
      then CartIconCount (item_count (JSON_reparse cart)) :: trace s
      else trace s.
Proof.
  destruct s as [pj uj doc ls ss su tr].
  unfold saveCart, updateCartIconCount, getCart, getElementById, emit, bind, gets, modify, ret; cbn.
  destruct (existsb _ doc); eexists; (split; [reflexivity|]); (split; [now constructor|reflexivity]).
Qed.

Lemma refresh_cart_page_trace (s : State) (cart : Cart) :
  persisted_cart s = Return cart ->
  exists s',
    (let* onCartPage := getElementById "cart-items-container" in
     if onCartPage then displayCartItems else ret tt) s = (Return tt, s') /\
    same_stores s s' /\
    (trace s' = trace s \/ trace s' = CartTable cart :: trace s).
Proof.
  intros H. apply persisted_cart_getCart in H.
  unfold getElementById, bind at 1, gets; cbn.
  destruct (existsb _ (document s)).
  - unfold displayCartItems, getElementById, bind, gets; cbn.
    destruct (negb _ || negb _)%bool.
    + exists s. split; [reflexivity|]. split; [apply same_stores_refl|now left].
    + rewrite H. eexists. split; [reflexivity|]. split; [apply same_stores_trace|now right].
  - exists s. split; [reflexivity|]. split; [apply same_stores_refl|now left].
Qed.

(** A successful [addToCart] of an integer quantity, as a function of the
    cart. *)
Lemma addToCart_with_added (productId : JS.id_arg) (P : Product.t) (q : Z) (size : string)
    (s : State) (cart : Cart) :
  fst (fetchProductById productId s) = Return (Some P) ->
  size <> "" -> 0 < q -> persisted_cart s = Return cart ->
  exists s',
    addToCart productId (JS.Int q) size s = (Return tt, s') /\
    saved (with_added P (JS.Int q) size cart) s s' /\
    persisted_cart s' = Return (JSON_reparse (with_added P (JS.Int q) size cart)).
Proof.
  intros HP Hsize Hq H.
  destruct (addToCart_run productId P (JS.Int q) size s cart HP) as (s' & Hrun & Hsaved); auto.
  { now apply falsy_false. }
  { cbn. now apply Z.leb_gt. }
  exists s'. split; [exact Hrun|]. split; [exact Hsaved|].
  apply persisted_cart_written, Hsaved.
Qed.

(** What JSON reads back of the cart with a quantity added, in its two
    cases. *)
Lemma with_added_found (P : Product.t) (q : JS.number) (size : string)
    (pre post : Cart) (item : CartLine.t) :
  round_trips (pre ++ item :: post) ->
  for_product (JS.Int (Product.id P)) size item = true ->
  (forall x, In x pre -> for_product (JS.Int (Product.id P)) size x = false) ->
  JSON_reparse (with_added P q size (pre ++ item :: post))
    = pre ++ CartLine.set_quantity (JS.JSON_number (JS.add (CartLine.quantity item) q)) item
          :: post.
Proof.
  intros Hrt Hitem Hpre. unfold with_added.
  rewrite findIndex_first; [|exact Hitem|exact Hpre].
  rewrite update_middle. now apply JSON_reparse_middle.
Qed.

Lemma with_added_fresh (P : Product.t) (q : Z) (size : string) (cart : Cart) :
  round_trips cart ->
  (forall x, In x cart -> for_product (JS.Int (Product.id P)) size x = false) ->
  with_added P (JS.Int q) size cart = cart ++ [snapshot P (JS.Int q) size] /\
  JSON_reparse (with_added P (JS.Int q) size cart) = cart ++ [snapshot P (JS.Int q) size].
Proof.
  intros Hrt Hnone. unfold with_added. rewrite findIndex_is_None by exact Hnone.
  split; [reflexivity|]. apply JSON_reparse_id.
  unfold round_trips in *. rewrite Forall_app, Forall_cons.
  split; [exact Hrt|]. split; [reflexivity|constructor].
Qed.

Lemma fetch_resolved_ext (productId : JS.id_arg) (s s' : State) :
  products_json s' = products_json s ->
  fst (fetchProductById productId s') = fst (fetchProductById productId s).
Proof.
  unfold fetchProductById, fetchProducts, console_error, emit, bind, gets, modify, ret; cbn.
  intros ->. now destruct (products_json s).
Qed.

(** ** Further properties of the cart *)

Lemma getCart_throws (s : State) (raw : string) (not_JSON : JS.is_JSON raw = false) :
  localStorage s = Some (JS.Raw raw not_JSON) -> raw <> "" ->
  getCart s = (Throw JS.SyntaxError, s).
Proof.
  intros H Hraw. unfold getCart, bind, gets; cbn. rewrite H.
  destruct raw; [congruence|reflexivity].
Qed.

(** X1: a cart text that is not empty and is not JSON is never replaced.
    [removeFromCart], [updateCartQuantity] and [updateCartIconCount] throw
    and leave the state as it is; [addToCart] throws once its guards are
    passed, and leaves the text as it is on every path. *)
Theorem corrupt_cart_stays (s : State) (raw : string) (not_JSON : JS.is_JSON raw = false) :
  localStorage s = Some (JS.Raw raw not_JSON) -> raw <> "" ->
  (forall productId size, removeFromCart productId size s = (Throw JS.SyntaxError, s)) /\
  (forall productId size n,
     updateCartQuantity productId size n s = (Throw JS.SyntaxError, s)) /\
  updateCartIconCount s = (Throw JS.SyntaxError, s) /\
  (forall productId quantity size,
     localStorage (snd (addToCart productId quantity size s)) = localStorage s /\
     (size <> "" -> JS.le quantity (JS.Int 0) = false ->
      (exists P, fst (fetchProductById productId s) = Return (Some P)) ->
      fst (addToCart productId quantity size s) = Throw JS.SyntaxError)).
Proof.
  intros H Hraw. pose proof (getCart_throws s raw not_JSON H Hraw) as Hthrow.
  split; [|split; [|split]].
  - intros productId size. unfold removeFromCart. now rewrite (bind_Throw _ _ _ _ _ Hthrow).
  - intros productId size n. unfold updateCartQuantity.
    unfold bind at 1. unfold bind at 1. now rewrite Hthrow.
  - unfold updateCartIconCount. now rewrite (bind_Throw _ _ _ _ _ Hthrow).
  - intros productId quantity size. unfold addToCart.
    destruct (JS.falsy size) eqn:Hsize.
    { split; [reflexivity|]. intros Hne. destruct size; [congruence|discriminate]. }
    destruct (JS.le quantity (JS.Int 0)) eqn:Hq.
    { split; [reflexivity|discriminate]. }
    destruct (fetchProductById_same productId s) as (p & s0 & E & Hsame).
    rewrite (bind_Return _ _ _ _ _ E).
    destruct p as [P|].
    + assert (H0 : localStorage s0 = Some (JS.Raw raw not_JSON)).
      { rewrite <- H. apply Hsame. }
      rewrite (bind_Throw _ _ _ _ _ (getCart_throws s0 raw not_JSON H0 Hraw)). cbn.
      split; [now rewrite H0|reflexivity].
    + cbn. split; [apply Hsame|].
      intros _ _ (P & HP). rewrite E in HP. discriminate.
Qed.

Lemma corrupt_cart_stays_witness :
  removeFromCart (JS.IdString "42") "M" corrupt_cart = (Throw JS.SyntaxError, corrupt_cart) /\
  updateCartQuantity (JS.IdString "42") "M" (JS.Int 3) corrupt_cart
    = (Throw JS.SyntaxError, corrupt_cart) /\
  fst (addToCart (JS.IdNumber 42) (JS.Int 1) "M" corrupt_cart) = Throw JS.SyntaxError.
Proof.
  destruct (corrupt_cart_stays corrupt_cart "{not json" eq_refl eq_refl)
    as (Hremove & Hupdate & _ & Hadd).
  { discriminate. }
  split; [apply Hremove|]. split; [apply Hupdate|].
  apply Hadd; [discriminate|reflexivity|]. exists tee. reflexivity.
Defined.

(** X2: with a quantity n > 0, [updateCartQuantity] sets the quantity of the
    first line for (parseInt productId, size) to n where it stands and leaves
    every other line; when the cart has no such line it logs the miss and
    does not write the store. *)
Theorem updateCartQuantity_sets_the_quantity (s : State) (productId : JS.id_arg)
    (size : string) (n : Z) (cart : Cart) :
  persisted_cart s = Return cart -> 0 < n ->
  exists s',
    updateCartQuantity productId size (JS.Int n) s = (Return tt, s') /\
    ((exists item, In item cart /\ line_for (JS.parseInt productId) size item) ->
     exists pre item post,
       cart = pre ++ item :: post /\
       line_for (JS.parseInt productId) size item /\
       (forall x, In x pre -> ~ line_for (JS.parseInt productId) size x) /\
       persisted_cart s' = Return (pre ++ CartLine.set_quantity (JS.Int n) item :: post)) /\
    ((forall item, In item cart -> ~ line_for (JS.parseInt productId) size item) ->
     localStorage s' = localStorage s /\
     In (ConsoleError "Item not found for update:") (trace s')).
Proof.
  intros H Hn. pose proof (persisted_cart_round_trips _ _ H) as Hnan.
  destruct (JS.findIndex (for_product (JS.parseInt productId) size) cart) as [i|] eqn:Hfind.
  - destruct (updateCartQuantity_run productId size (JS.Int n) s cart H) as (s' & Hrun & Hs).
    rewrite Hfind in Hs.
    apply findIndex_Some in Hfind as (pre & item & post & -> & <- & Hitem & Hpre).
    apply for_product_line_for in Hitem.
    replace (JS.gt (JS.Int n) (JS.Int 0)) with true in Hs
      by (symmetry; cbn; now apply Z.ltb_lt).
    rewrite update_middle in Hs.
    exists s'. split; [exact Hrun|]. split.
    + intros _. exists pre, item, post. split; [reflexivity|]. split; [exact Hitem|].
      split; [intros x Hx; now apply for_product_not_line_for, Hpre|].
      apply (saved_persisted _ _ _ Hs).
      unfold round_trips in *. rewrite Forall_app, Forall_cons in *.
      destruct Hnan as (Hpre' & _ & Hpost').
      split; [exact Hpre'|]. split; [reflexivity|exact Hpost'].
    + intros Hnone. exfalso. apply (Hnone item); [|exact Hitem].
      apply in_or_app. right. now left.
  - unfold updateCartQuantity.
    rewrite (bind_Return _ _ _ _ _ (persisted_cart_getCart _ _ H)).
    fold (for_product (JS.parseInt productId) size). rewrite Hfind.
    unfold console_error, emit, modify, bind at 1.
    destruct (refresh_cart_page_trace
                (set_trace (ConsoleError "Item not found for update:" :: trace s) s) cart)
      as (s' & Hrun & Hsame & Htrace).
    { rewrite <- H. now apply persisted_cart_ext. }
    exists s'. split; [exact Hrun|]. split.
    + intros (item & Hin & Hitem). exfalso.
      apply for_product_line_for in Hitem.
      rewrite (findIndex_None _ _ Hfind item Hin) in Hitem. discriminate.
    + intros _. split; [apply Hsame|].
      destruct Htrace as [->| ->]; cbn; auto.
Qed.

Lemma updateCartQuantity_sets_the_quantity_witness :
  exists s',
    updateCartQuantity (JS.IdString "42") "S" (JS.Int 5)
      (shop (Some (JS.JSON_stringify doubled_cart))) = (Return tt, s') /\
    persisted_cart s'
      = Return [snapshot tee (JS.Int 1) "M"; snapshot tee (JS.Int 5) "S"; snapshot tee (JS.Int 2) "M"].
Proof.
  destruct (updateCartQuantity_sets_the_quantity
              (shop (Some (JS.JSON_stringify doubled_cart))) (JS.IdString "42") "S" 5
              doubled_cart eq_refl ltac:(lia))
    as (s' & Hrun & Hfound & _).
  exists s'. split; [exact Hrun|].
  destruct Hfound as (pre & item & post & Hcart & Hitem & Hpre & Hpersisted).
  { exists (snapshot tee (JS.Int 3) "S"). split; [right; now left|now split]. }
  assert (Hs' : s' = snd (updateCartQuantity (JS.IdString "42") "S" (JS.Int 5)
                            (shop (Some (JS.JSON_stringify doubled_cart)))))
    by now rewrite Hrun.
  rewrite Hs'. reflexivity.
Defined.

Lemma add_add (x : JS.number) (q1 q2 : Z) :
  0 < q1 -> 0 < q2 -> safe_integer (q1 + q2) ->
  JS.JSON_number x = x ->
  (forall n, x = JS.Int n -> safe_integer n /\ safe_integer (n + q1 + q2)) ->
  JS.JSON_number (JS.add (JS.JSON_number (JS.add x (JS.Int q1))) (JS.Int q2))
    = JS.JSON_number (JS.add x (JS.Int (q1 + q2))).
Proof.
  intros Hq1 Hq2 Hq Hx Hsafe.
  assert (Hzero : safe_integer 0) by (unfold safe_integer; cbn; lia).
  destruct x as [n| | |negative]; try discriminate Hx.
  - destruct (Hsafe n eq_refl) as [Hn Hsum].
    rewrite (add_safe n q1) by (apply (safe_between n _ (n + q1 + q2)); auto; lia).
    cbn [JS.JSON_number]. rewrite (add_safe (n + q1) q2) by exact Hsum.
    rewrite (add_safe n (q1 + q2)) by (now rewrite Z.add_assoc).
    now rewrite Z.add_assoc.
  - change (JS.add JS.Null (JS.Int q1)) with (JS.add (JS.Int 0) (JS.Int q1)).
    change (JS.add JS.Null (JS.Int (q1 + q2))) with (JS.add (JS.Int 0) (JS.Int (q1 + q2))).
    rewrite (add_safe 0 q1) by (apply (safe_between 0 _ (q1 + q2)); auto; lia).
    cbn [JS.JSON_number]. rewrite (add_safe (0 + q1) q2) by exact Hq.
    rewrite (add_safe 0 (q1 + q2)) by exact Hq. reflexivity.
Qed.

Lemma with_added_twice (P : Product.t) (q1 q2 : Z) (size : string) (cart : Cart) :
  0 < q1 -> 0 < q2 -> safe_integer (q1 + q2) ->
  round_trips cart ->
  (forall item n,
     In item cart -> line_for (JS.Int (Product.id P)) size item ->
     CartLine.quantity item = JS.Int n -> safe_integer n /\ safe_integer (n + q1 + q2)) ->
  JSON_reparse (with_added P (JS.Int q2) size (JSON_reparse (with_added P (JS.Int q1) size cart)))
    = JSON_reparse (with_added P (JS.Int (q1 + q2)) size cart).
Proof.
  intros Hq1 Hq2 Hq Hrt Hsafe.
  destruct (JS.findIndex (for_product (JS.Int (Product.id P)) size) cart) as [i|] eqn:Hfind.
  - apply findIndex_Some in Hfind as (pre & item & post & -> & _ & Hitem & Hpre).
    rewrite !(with_added_found P _ size pre post item Hrt Hitem Hpre).
    rewrite with_added_found.
    + cbn [CartLine.quantity CartLine.set_quantity].
      rewrite add_add; auto.
      * unfold round_trips in Hrt. rewrite Forall_app, Forall_cons in Hrt. apply Hrt.
      * intros n Hn. apply (Hsafe item n); [|now apply for_product_line_for|exact Hn].
        apply in_or_app. right. now left.
    + unfold round_trips in *. rewrite Forall_app, Forall_cons in *.
      destruct Hrt as (Hrt1 & _ & Hrt2). split; [exact Hrt1|]. split; [|exact Hrt2].
      apply JSON_number_idem.
    + exact Hitem.
    + exact Hpre.
  - pose proof (findIndex_None _ _ Hfind) as Hnone.
    destruct (with_added_fresh P q1 size cart Hrt Hnone) as [_ ->].
    destruct (with_added_fresh P (q1 + q2) size cart Hrt Hnone) as [_ ->].
    assert (Hrt1 : round_trips (cart ++ [snapshot P (JS.Int q1) size])).
    { unfold round_trips in *. rewrite Forall_app, Forall_cons.
      split; [exact Hrt|]. split; [reflexivity|constructor]. }
    rewrite (with_added_found P _ size cart [] (snapshot P (JS.Int q1) size) Hrt1).
    + cbn [CartLine.quantity snapshot]. rewrite (add_safe q1 q2 Hq). reflexivity.
    + unfold for_product. cbn. now rewrite Z.eqb_refl, String.eqb_refl.
    + exact Hnone.
Qed.

(** X3: adding q1 and then q2 of a product and a size leaves the cart that
    adding q1 + q2 at once leaves, as long as q1 + q2 and, for a line the
    cart has for the product and the size, its quantity before and after are
    integers below 2^53 in magnitude. *)
Theorem addToCart_twice_adds_up (s : State) (P : Product.t) (q1 q2 : Z) (size : string)
    (cart : Cart) :
  resolves s P -> size <> "" -> 0 < q1 -> 0 < q2 -> safe_integer (q1 + q2) ->
  persisted_cart s = Return cart ->
  (forall item n,
     In item cart -> line_for (JS.Int (Product.id P)) size item ->
     CartLine.quantity item = JS.Int n -> safe_integer n /\ safe_integer (n + q1 + q2)) ->
  exists s1 s2 s12 cart',
    addToCart (JS.IdNumber (Product.id P)) (JS.Int q1) size s = (Return tt, s1) /\
    addToCart (JS.IdNumber (Product.id P)) (JS.Int q2) size s1 = (Return tt, s2) /\
    addToCart (JS.IdNumber (Product.id P)) (JS.Int (q1 + q2)) size s = (Return tt, s12) /\
    persisted_cart s2 = Return cart' /\ persisted_cart s12 = Return cart'.
Proof.
  intros HP Hsize Hq1 Hq2 Hq H Hsafe.
  destruct (addToCart_with_added _ P q1 size s cart HP Hsize Hq1 H) as (s1 & Hrun1 & Hsaved1 & H1).
  assert (HP1 : resolves s1 P) by (apply (resolves_ext s); [apply Hsaved1|exact HP]).
  destruct (addToCart_with_added _ P q2 size s1 _ HP1 Hsize Hq2 H1) as (s2 & Hrun2 & _ & H2).
  destruct (addToCart_with_added _ P (q1 + q2) size s cart HP Hsize ltac:(lia) H)
    as (s12 & Hrun12 & _ & H12).
  exists s1, s2, s12. eexists. split; [exact Hrun1|]. split; [exact Hrun2|].
  split; [exact Hrun12|]. split; [|exact H12].
  rewrite H2. f_equal.
  apply with_added_twice; auto. apply (persisted_cart_round_trips s), H.
Qed.

Lemma addToCart_twice_adds_up_witness :
  exists s1 s2 s12 cart',
    addToCart (JS.IdNumber 42) (JS.Int 2) "M" (shop (Some (JS.JSON_stringify doubled_cart)))
      = (Return tt, s1) /\
    addToCart (JS.IdNumber 42) (JS.Int 3) "M" s1 = (Return tt, s2) /\
    addToCart (JS.IdNumber 42) (JS.Int (2 + 3)) "M" (shop (Some (JS.JSON_stringify doubled_cart)))
      = (Return tt, s12) /\
    persisted_cart s2 = Return cart' /\ persisted_cart s12 = Return cart'.
Proof.
  apply (addToCart_twice_adds_up (shop (Some (JS.JSON_stringify doubled_cart))) tee 2 3 "M"
           doubled_cart); try reflexivity; try discriminate.
  intros item n [<-|[<-|[<-|[]]]] _ [= <-]; unfold safe_integer; cbn; lia.
Defined.

(** X4: on a cart with no line for (P.id, size), [addToCart] followed by
    [removeFromCart] of the same product and size gives the cart back. *)
Theorem addToCart_then_removeFromCart (s : State) (P : Product.t) (q : Z) (size : string)
    (cart : Cart) :
  resolves s P -> size <> "" -> 0 < q -> persisted_cart s = Return cart ->
  (forall item, In item cart -> ~ line_for (JS.Int (Product.id P)) size item) ->
  exists s1 s2,
    addToCart (JS.IdNumber (Product.id P)) (JS.Int q) size s = (Return tt, s1) /\
    removeFromCart (JS.IdNumber (Product.id P)) size s1 = (Return tt, s2) /\
    persisted_cart s2 = Return cart.
Proof.
  intros HP Hsize Hq H Hnone.
  pose proof (persisted_cart_round_trips _ _ H) as Hrt.
  assert (Hnone' : forall x, In x cart -> for_product (JS.Int (Product.id P)) size x = false).
  { intros x Hx. apply for_product_not_line_for, Hnone, Hx. }
  destruct (with_added_fresh P q size cart Hrt Hnone') as [_ Hadded].
  destruct (addToCart_with_added _ P q size s cart HP Hsize Hq H) as (s1 & Hrun1 & _ & H1).
  rewrite Hadded in H1.
  destruct (removeFromCart_run (JS.IdNumber (Product.id P)) size s1 _ H1) as (s2 & Hrun2 & Hsaved).
  exists s1, s2. split; [exact Hrun1|]. split; [exact Hrun2|].
  assert (Hfilter :
    List.filter (fun item => negb (for_product (JS.parseInt (JS.IdNumber (Product.id P))) size item))
      (cart ++ [snapshot P (JS.Int q) size]) = cart).
  { rewrite List.filter_app, filter_nothing.
    - cbn. unfold for_product. cbn. rewrite Z.eqb_refl, String.eqb_refl. cbn.
      apply app_nil_r.
    - intros y Hy. apply negb_true_iff, Hnone', Hy. }
  rewrite Hfilter in Hsaved.
  apply (saved_persisted _ _ _ Hsaved), Hrt.
Qed.

Lemma addToCart_then_removeFromCart_witness :
  exists s1 s2,
    addToCart (JS.IdNumber 42) (JS.Int 2) "L" (shop (Some (JS.JSON_stringify doubled_cart)))
      = (Return tt, s1) /\
    removeFromCart (JS.IdNumber 42) "L" s1 = (Return tt, s2) /\
    persisted_cart s2 = Return doubled_cart.
Proof.
  apply (addToCart_then_removeFromCart (shop (Some (JS.JSON_stringify doubled_cart))) tee 2 "L"
           doubled_cart); try reflexivity; try discriminate.
  intros item [<-|[<-|[<-|[]]]] [_ Hsize]; discriminate Hsize.
Defined.

(** ** The badge *)

Lemma updateCartIconCount_trace (s : State) (cart : Cart) :
  persisted_cart s = Return cart ->
  updateCartIconCount s =
  (Return tt,
   if existsb (String.eqb "cart-item-count") (document s)
   then set_trace (CartIconCount (item_count cart) :: trace s) s
   else s).
Proof.
  intros H. apply persisted_cart_getCart in H.
  unfold updateCartIconCount. rewrite (bind_Return _ _ _ _ _ H).
  unfold getElementById, bind, gets, emit, modify, ret, item_count.
  destruct (existsb _ (document s)); reflexivity.
Qed.

Lemma saveCart_badge (cart : Cart) (s : State) :
  has_badge s ->
  exists s',
    saveCart cart s = (Return tt, s') /\ saved cart s s' /\
    badge (trace s') = Some (item_count (JSON_reparse cart)).
Proof.
  intros Hbadge. apply has_badge_getElementById in Hbadge.
  destruct (saveCart_trace cart s) as (s' & Hrun & Hsaved & Htrace).
  rewrite Hbadge in Htrace. exists s'. split; [exact Hrun|]. split; [exact Hsaved|].
  now rewrite Htrace.
Qed.

Lemma badge_in_sync_saved (cart : Cart) (s : State) :
  localStorage s = Some (JS.JSON_stringify cart) ->
  badge (trace s) = Some (item_count (JSON_reparse cart)) ->
  badge_in_sync s.
Proof.
  intros Hls Hbadge cart' Hcart'.
  rewrite (persisted_cart_written s cart Hls) in Hcart'. injection Hcart' as <-. exact Hbadge.
Qed.

Lemma badge_in_sync_kept (s s' : State) :
  badge_in_sync s -> localStorage s' = localStorage s -> badge (trace s') = badge (trace s) ->
  badge_in_sync s'.
Proof.
  intros Hsync Hls Hbadge cart Hcart. rewrite Hbadge. apply Hsync.
  rewrite <- Hcart. symmetry. now apply persisted_cart_ext.
Qed.

Lemma refresh_cart_page_badge (s : State) (cart : Cart) :
  persisted_cart s = Return cart ->
  exists s',
    (let* onCartPage := getElementById "cart-items-container" in
     if onCartPage then displayCartItems else ret tt) s = (Return tt, s') /\
    same_stores s s' /\ badge (trace s') = badge (trace s).
Proof.
  intros H. destruct (refresh_cart_page_trace s cart H) as (s' & Hrun & Hsame & Htrace).
  exists s'. split; [exact Hrun|]. split; [exact Hsame|].
  destruct Htrace as [->| ->]; reflexivity.
Qed.

Lemma fetchProductById_badge (productId : JS.id_arg) (s : State) :
  exists product s',
    fetchProductById productId s = (Return product, s') /\ same_stores s s' /\
    badge (trace s') = badge (trace s).
Proof.
  destruct s as [pj uj doc ls ss su tr].
  unfold fetchProductById, fetchProducts, console_error, emit, bind, gets, modify, ret; cbn.
  destruct pj; cbn; do 2 eexists; (split; [reflexivity|]); (split; [now constructor|reflexivity]).
Qed.

Lemma has_badge_same (s s' : State) : document s' = document s -> has_badge s -> has_badge s'.
Proof. unfold has_badge. now intros ->. Qed.

(** X5: on a page with the badge, [updateCartIconCount] makes the badge show
    the count of the stored cart, and [addToCart], [removeFromCart] and
    [updateCartQuantity] keep it so, whatever their arguments and whether
    they save or give up. *)
Theorem badge_follows_the_cart (s : State) (cart : Cart) :
  has_badge s -> persisted_cart s = Return cart ->
  badge_in_sync (snd (updateCartIconCount s)) /\
  (badge_in_sync s ->
   (forall productId quantity size,
      badge_in_sync (snd (addToCart productId quantity size s))) /\
   (forall productId size, badge_in_sync (snd (removeFromCart productId size s))) /\
   (forall productId size newQuantity,
      badge_in_sync (snd (updateCartQuantity productId size newQuantity s)))).
Proof.
  intros Hbadge H. pose proof (persisted_cart_getCart _ _ H) as Hget. split.
  { rewrite (updateCartIconCount_trace s cart H).
    rewrite (proj1 (has_badge_getElementById s) Hbadge). cbn [snd].
    intros cart' Hcart'.
    rewrite (persisted_cart_ext s (set_trace _ s) eq_refl), H in Hcart'.
    now injection Hcart' as <-. }
  intros Hsync. split; [|split].
  - intros productId quantity size. unfold addToCart.
    destruct (JS.falsy size); [now apply (badge_in_sync_kept s)|].
    destruct (JS.le quantity (JS.Int 0)); [now apply (badge_in_sync_kept s)|].
    destruct (fetchProductById_badge productId s) as (p & s0 & E & Hsame & Hb0).
    rewrite (bind_Return _ _ _ _ _ E). destruct p as [P|].
    + assert (H0 : persisted_cart s0 = Return cart).
      { rewrite <- H. apply persisted_cart_ext, Hsame. }
      rewrite (bind_Return _ _ _ _ _ (persisted_cart_getCart _ _ H0)).
      match goal with |- context [saveCart ?c] => set (cart' := c) end.
      destruct (saveCart_badge cart' s0) as (s1 & Hs1 & Hsaved & Hb1).
      { apply (has_badge_same s); [apply Hsame|exact Hbadge]. }
      rewrite (bind_Return _ _ _ _ _ Hs1). unfold alert, emit, modify. cbn [snd].
      apply (badge_in_sync_saved cart'); [apply Hsaved|exact Hb1].
    + unfold console_error, emit, modify. cbn [snd].
      apply (badge_in_sync_kept s); [exact Hsync|apply Hsame|exact Hb0].
  - intros productId size. unfold removeFromCart.
    rewrite (bind_Return _ _ _ _ _ Hget).
    match goal with |- context [saveCart ?c] => set (cart' := c) end.
    destruct (saveCart_badge cart' s Hbadge) as (s1 & Hs1 & Hsaved & Hb1).
    rewrite (bind_Return _ _ _ _ _ Hs1).
    destruct (refresh_cart_page_badge s1 (JSON_reparse cart')) as (s2 & Hs2 & Hsame & Hb2).
    { apply persisted_cart_written, Hsaved. }
    rewrite Hs2. cbn [snd].
    apply (badge_in_sync_saved cart').
    + destruct Hsame, Hsaved. congruence.
    + congruence.
  - intros productId size newQuantity. unfold updateCartQuantity.
    rewrite (bind_Return _ _ _ _ _ Hget).
    destruct (JS.findIndex _ cart) as [i|].
    + match goal with |- context [saveCart ?c] => set (cart' := c) end.
      destruct (saveCart_badge cart' s Hbadge) as (s1 & Hs1 & Hsaved & Hb1).
      rewrite (bind_Return _ _ _ _ _ Hs1).
      destruct (refresh_cart_page_badge s1 (JSON_reparse cart')) as (s2 & Hs2 & Hsame & Hb2).
      { apply persisted_cart_written, Hsaved. }
      rewrite Hs2. cbn [snd].
      apply (badge_in_sync_saved cart').
      * destruct Hsame, Hsaved. congruence.
      * congruence.
    + unfold console_error, emit, modify, bind at 1.
      destruct (refresh_cart_page_badge
                  (set_trace (ConsoleError "Item not found for update:" :: trace s) s) cart)
        as (s2 & Hs2 & Hsame & Hb2).
      { rewrite <- H. now apply persisted_cart_ext. }
      rewrite Hs2. cbn [snd].
      apply (badge_in_sync_kept s); [exact Hsync|apply Hsame|exact Hb2].
Qed.

Lemma badge_follows_the_cart_witness :
  badge_in_sync (snd (updateCartIconCount (shop (Some (JS.JSON_stringify doubled_cart))))) /\
  badge (trace (snd (addToCart (JS.IdNumber 42) (JS.Int 4) "S"
                       (snd (updateCartIconCount (shop (Some (JS.JSON_stringify doubled_cart))))))))
    = Some (JS.Int 10).
Proof.
  destruct (badge_follows_the_cart (shop (Some (JS.JSON_stringify doubled_cart))) doubled_cart)
    as (Hload & _).
  { now left. }
  { reflexivity. }
  split; [exact Hload|].
  destruct (badge_follows_the_cart
              (snd (updateCartIconCount (shop (Some (JS.JSON_stringify doubled_cart)))))
              doubled_cart) as (_ & Hkeep).
  { now left. }
  { reflexivity. }
  destruct (Hkeep Hload) as (Hadd & _).
  exact (Hadd (JS.IdNumber 42) (JS.Int 4) "S"
           [snapshot tee (JS.Int 1) "M"; snapshot tee (JS.Int 7) "S"; snapshot tee (JS.Int 2) "M"]
           eq_refl).
Defined.

(** ** The ids and quantities that travel as text *)

Lemma fetchProductById_text (n : Z) :
  safe_integer n ->
  fetchProductById (JS.IdString (Number_toString n)) = fetchProductById (JS.IdNumber n).
Proof.
  intros Hn. unfold fetchProductById. cbn [JS.parseInt].
  now rewrite (parseInt_Number_toString n Hn).
Qed.

Lemma addToCartButton_click_run (productId sizeValue quantityValue : string) (s : State) :
  addToCartButton_click productId sizeValue quantityValue s =
  if (existsb (String.eqb "size-select") (document s) &&
      existsb (String.eqb "quantity-input") (document s))%bool
  then addToCart (JS.IdString productId) (JS.parseInt_string quantityValue) sizeValue s
  else (Return tt,
        set_trace (ConsoleError "Size or quantity elements not found on product page."
                     :: trace s) s).
Proof.
  unfold addToCartButton_click, getElementById, bind, gets, console_error, emit, modify.
  destruct (existsb (String.eqb "size-select") (document s));
    destruct (existsb (String.eqb "quantity-input") (document s)); reflexivity.
Qed.

(** X6: the id a cart row carries in its data attribute, the id of the
    product page's URL and a quantity typed as an integer are read back by
    [parseInt] as the numbers they were written from: the Remove button, the
    quantity field and the Add to Cart button do what [removeFromCart],
    [updateCartQuantity] and [addToCart] do with those numbers.  Add to Cart
    with one of its two fields missing only logs the fact. *)
Theorem handlers_read_back_the_numbers (s : State) (id n : Z) (size : string) :
  safe_integer id -> safe_integer n ->
  removeCartItemButton_click (Number_toString id) size s
    = removeFromCart (JS.IdNumber id) size s /\
  cartItemQuantity_change (Number_toString id) size (Number_toString n) s
    = updateCartQuantity (JS.IdNumber id) size (JS.Int n) s /\
  (In "size-select" (document s) -> In "quantity-input" (document s) ->
   addToCartButton_click (Number_toString id) size (Number_toString n) s
     = addToCart (JS.IdNumber id) (JS.Int n) size s) /\
  (~ In "size-select" (document s) \/ ~ In "quantity-input" (document s) ->
   addToCartButton_click (Number_toString id) size (Number_toString n) s
     = (Return tt,
        set_trace (ConsoleError "Size or quantity elements not found on product page."
                     :: trace s) s)).
Proof.
  intros Hid Hn.
  assert (Hin : forall x, existsb (String.eqb x) (document s) = true <-> In x (document s)).
  { intros x. rewrite existsb_exists. split.
    - intros (y & Hy & Heq). apply String.eqb_eq in Heq. now subst.
    - intros H. exists x. split; [exact H|apply String.eqb_refl]. }
  split; [|split; [|split]].
  - unfold removeCartItemButton_click, removeFromCart. cbn [JS.parseInt].
    now rewrite (parseInt_Number_toString id Hid).
  - unfold cartItemQuantity_change, updateCartQuantity. cbn [JS.parseInt].
    now rewrite (parseInt_Number_toString id Hid), (parseInt_Number_toString n Hn).
  - intros Hsize Hquantity. apply Hin in Hsize, Hquantity.
    rewrite addToCartButton_click_run, Hsize, Hquantity. cbn [andb].
    rewrite (parseInt_Number_toString n Hn).
    unfold addToCart. now rewrite (fetchProductById_text id Hid).
  - intros Hmissing. rewrite addToCartButton_click_run.
    destruct (existsb (String.eqb "size-select") (document s)) eqn:E1;
      destruct (existsb (String.eqb "quantity-input") (document s)) eqn:E2;
      try reflexivity.
    exfalso. apply Hin in E1, E2. tauto.
Qed.

Lemma handlers_read_back_the_numbers_witness :
  removeCartItemButton_click (Number_toString 42) "M" product_page
    = removeFromCart (JS.IdNumber 42) "M" product_page /\
  addToCartButton_click (Number_toString 42) "M" (Number_toString 3) product_page
    = addToCart (JS.IdNumber 42) (JS.Int 3) "M" product_page.
Proof.
  destruct (handlers_read_back_the_numbers product_page 42 3 "M") as (Hremove & _ & Hadd & _).
  { unfold safe_integer. cbn. lia. }
  { unfold safe_integer. cbn. lia. }
  split; [exact Hremove|]. apply Hadd; cbn; tauto.
Defined.

(** ** Further properties of the user directory *)

Lemma newId_fresh (users : list User.t) (u : User.t) :
  (forall x, In x users -> safe_integer (User.id x)) ->
  In u users -> User.id u < newId users.
Proof.
  intros Hsafe Hin. assert (Hne : users <> []) by (intros ->; destruct Hin).
  destruct (is_max_exists users Hne) as (m & Hm).
  rewrite (newId_max users m Hm).
  - destruct Hm as [_ Hle]. specialize (Hle (User.id u) (in_map _ _ _ Hin)). lia.
  - destruct Hm as [Hm _]. apply in_map_iff in Hm as (x & <- & Hx). now apply Hsafe.
Qed.

Lemma directory_after_success (name email password : string) (s s' : State)
    (users : list User.t) :
  directory s = Return users ->
  registerUser name email password s = (Return true, s') ->
  find (fun u => String.eqb (User.email u) email) users = None /\
  sessionUsers s' = users ++ [new_user users name email password] /\
  sessionStorage s' = Some (JS.JSON_stringify (new_user users name email password)) /\
  users_json s' = users_json s /\
  directory s' = Return (users ++ [new_user users name email password]).
Proof.
  intros Hdir Hrun.
  assert (Htrue : fst (registerUser name email password s) = Return true) by now rewrite Hrun.
  pose proof (registerUser_true _ _ _ _ _ Hdir Htrue) as Hfind.
  destruct (registerUser_success_run name email password s users Hdir Hfind)
    as (s2 & Hrun2 & Hsu & Hss & Huj & _).
  rewrite Hrun in Hrun2. injection Hrun2 as <-.
  split; [exact Hfind|]. split; [exact Hsu|]. split; [exact Hss|]. split; [exact Huj|].
  rewrite <- Hsu. apply directory_loaded. rewrite Hsu. now destruct users.
Qed.

(** X7: [registerUser] keeps a directory whose ids are integers below 2^53
    in magnitude free of repeated emails and of repeated ids: it leaves the
    directory as it is, or appends one user whose email no user had and whose
    id is greater than every id. *)
Theorem registerUser_keeps_users_distinct (s : State) (name email password : string)
    (users : list User.t) :
  directory s = Return users -> distinct_users users ->
  (forall u, In u users -> safe_integer (User.id u)) ->
  exists users',
    directory (snd (registerUser name email password s)) = Return users' /\
    distinct_users users' /\
    (users' = users \/
     exists newUser,
       users' = users ++ [newUser] /\ User.email newUser = email /\
       forall u, In u users -> User.email u <> email /\ User.id u < User.id newUser).
Proof.
  intros Hdir [Hemails Hids] Hsafe.
  destruct (find (fun u => String.eqb (User.email u) email) users) as [v|] eqn:Hfind.
  - destruct (registerUser_duplicate_run name email password s users v Hdir Hfind)
      as (s1 & Hs1 & Hf & Hrun).
    exists users. rewrite Hrun. cbn [snd]. split; [|split; [now split|now left]].
    assert (Hsu : sessionUsers s1 = users) by apply Hf.
    unfold directory. rewrite fetchUsers_loaded; cbn; rewrite Hsu; [reflexivity|].
    intros ->. discriminate Hfind.
  - destruct (registerUser_success_run name email password s users Hdir Hfind)
      as (s' & Hrun & Hsu & _).
    pose proof (proj1 (find_email_None email users) Hfind) as Hfresh.
    exists (users ++ [new_user users name email password]). rewrite Hrun. cbn [snd].
    split; [|split].
    + rewrite <- Hsu. apply directory_loaded. rewrite Hsu. now destruct users.
    + unfold distinct_users. rewrite !map_app. cbn [map]. split; apply NoDup_app.
      * split; [exact Hemails|]. split; [|apply NoDup_singleton].
        intros e He He'. apply list_elem_of_In in He, He'.
        destruct He' as [<-|[]]. apply in_map_iff in He as (u & Hu & Hin).
        now apply (Hfresh u).
      * split; [exact Hids|]. split; [|apply NoDup_singleton].
        intros i Hi Hi'. apply list_elem_of_In in Hi, Hi'.
        destruct Hi' as [<-|[]]. apply in_map_iff in Hi as (u & Hu & Hin).
        pose proof (newId_fresh users u Hsafe Hin) as Hlt. cbn in Hu. lia.
    + right. exists (new_user users name email password).
      split; [reflexivity|]. split; [reflexivity|].
      intros u Hin. split; [now apply Hfresh|now apply newId_fresh].
Qed.

Lemma registerUser_keeps_users_distinct_witness :
  exists users',
    directory (snd (registerUser "Bob" "bob@example.com" "builder" (shop None))) = Return users' /\
    distinct_users users' /\
    (users' = [alice] \/
     exists newUser,
       users' = [alice] ++ [newUser] /\ User.email newUser = "bob@example.com" /\
       forall u, In u [alice] -> User.email u <> "bob@example.com" /\ User.id u < User.id newUser).
Proof.
  apply (registerUser_keeps_users_distinct (shop None) "Bob" "bob@example.com" "builder" [alice]).
  - reflexivity.
  - split; apply NoDup_singleton.
  - intros u [<-|[]]. unfold safe_integer. cbn. lia.
Defined.

Lemma loginUser_found (email password : string) (s : State) (users : list User.t) (u : User.t) :
  sessionUsers s = users -> users <> [] ->
  find (fun x => String.eqb (User.email x) email) users = Some u ->
  loginUser email password s =
  if String.eqb (User.password u) password
  then (Return true,
        set_trace (UserNav true :: trace s) (set_sessionStorage (Some (JS.JSON_stringify u)) s))
  else (Return false, set_trace (Alert "Invalid email or password." :: trace s) s).
Proof.
  intros Hsu Hne Hfind. unfold loginUser.
  rewrite (bind_Return _ _ _ _ _ (fetchUsers_loaded s ltac:(now rewrite Hsu))).
  rewrite Hsu, Hfind. destruct (String.eqb _ password); reflexivity.
Qed.

(** X8: a user who has just registered can log in on the same page with the
    email and the password given, and becomes the session again; with that
    email and any other password the login fails. *)
Theorem registered_user_can_log_in (s s' : State) (name email password : string) :
  registerUser name email password s = (Return true, s') ->
  (exists s'' u,
     loginUser email password s' = (Return true, s'') /\
     current_user s'' = Return (Some u) /\
     (User.name u, User.email u, User.password u) = (name, email, password)) /\
  (forall other, other <> password -> fst (loginUser email other s') = Return false).
Proof.
  intros Hrun. destruct (fetchUsers_run s) as (users & s1 & Hs1 & _).
  assert (Hdir : directory s = Return users) by (unfold directory; now rewrite Hs1).
  destruct (directory_after_success _ _ _ _ _ _ Hdir Hrun) as (Hfind & Hsu & _).
  set (newUser := new_user users name email password) in *.
  assert (Hfound : find (fun x => String.eqb (User.email x) email) (users ++ [newUser])
                   = Some newUser).
  { apply find_email_Some. exists users, []. split; [reflexivity|]. split; [reflexivity|].
    now apply find_email_None. }
  assert (Hne : users ++ [newUser] <> []) by now destruct users.
  pose proof (loginUser_found email) as Hlogin. split.
  - rewrite (Hlogin password s' _ newUser Hsu Hne Hfound).
    cbn [User.password newUser new_user]. rewrite String.eqb_refl.
    eexists. exists newUser. split; [reflexivity|]. split; [|reflexivity].
    now apply current_user_written.
  - intros other Hother. rewrite (Hlogin other s' _ newUser Hsu Hne Hfound).
    cbn [User.password newUser new_user].
    rewrite (proj2 (String.eqb_neq password other)); [reflexivity|congruence].
Qed.

Lemma registered_user_can_log_in_witness :
  exists s'' u,
    loginUser "bob@example.com" "builder"
      (snd (registerUser "Bob" "bob@example.com" "builder" (shop None))) = (Return true, s'') /\
    current_user s'' = Return (Some u) /\
    (User.name u, User.email u, User.password u) = ("Bob", "bob@example.com", "builder").
Proof.
  apply (registered_user_can_log_in (shop None) _ "Bob" "bob@example.com" "builder").
  reflexivity.
Defined.




(** X10: when the user fixture fails to load, [fetchUsers] returns no user,
    logs the failure and leaves the overlay empty, so that the next call
    fetches again and gets the fixture if it loads then.  A registration made
    meanwhile gets id 1 and fills the overlay: from then on the fixture is
    never fetched, and a user of the fixture cannot log in. *)
Theorem fetchUsers_failure (s : State) :
  sessionUsers s = [] -> users_json s = None ->
  (exists s1,
     fetchUsers s = (Return [], s1) /\ sessionUsers s1 = [] /\
     trace s1 = ConsoleError "Could not fetch users:" :: Fetch "data/users.json" :: trace s /\
     forall fixture,
       fst (fetchUsers (set_users_json (Some fixture) s1)) = Return fixture) /\
  (forall name email password,
     exists s' newUser,
       registerUser name email password s = (Return true, s') /\
       User.id newUser = 1 /\ sessionUsers s' = [newUser] /\
       forall fixture,
         directory (set_users_json (Some fixture) s') = Return [newUser] /\
         forall u, In u fixture -> User.email u <> email ->
                   fst (loginUser (User.email u) (User.password u)
                          (set_users_json (Some fixture) s')) = Return false).
Proof.
  intros Hempty Hjson.
  pose proof (fetchUsers_empty s Hempty) as Hfetch. rewrite Hjson in Hfetch. split.
  - eexists. split; [exact Hfetch|]. split; [reflexivity|]. split; [reflexivity|].
    intros fixture. now rewrite fetchUsers_empty.
  - intros name email password.
    assert (Hdir : directory s = Return []) by (unfold directory; now rewrite Hfetch).
    destruct (registerUser_success_run name email password s [] Hdir eq_refl)
      as (s' & Hrun & Hsu & _).
    exists s', (new_user [] name email password).
    split; [exact Hrun|]. split; [reflexivity|]. split; [exact Hsu|].
    intros fixture.
    assert (Hsu' : sessionUsers (set_users_json (Some fixture) s')
                   = [new_user [] name email password]) by exact Hsu.
    split.
    + rewrite <- Hsu'. apply directory_loaded. now rewrite Hsu'.
    + intros u _ Hemail. unfold loginUser.
      rewrite (bind_Return _ _ _ _ _
                 (fetchUsers_loaded _ ltac:(rewrite Hsu'; discriminate))).
      rewrite Hsu'. cbn [find User.email new_user].
      rewrite (proj2 (String.eqb_neq email (User.email u))); [reflexivity|congruence].
Qed.

Lemma fetchUsers_failure_witness :
  exists s' newUser,
    registerUser "Bob" "bob@example.com" "builder" (loaded (Some [tee]) None None None)
      = (Return true, s') /\
    User.id newUser = 1 /\ sessionUsers s' = [newUser] /\
    fst (loginUser "alice@example.com" "wonderland" (set_users_json (Some [alice]) s'))
      = Return false.
Proof.
  destruct (fetchUsers_failure (loaded (Some [tee]) None None None) eq_refl eq_refl)
    as (_ & Hregister).
  destruct (Hregister "Bob" "bob@example.com" "builder") as (s' & newUser & Hrun & Hid & Hsu & Hlater).
  exists s', newUser. split; [exact Hrun|]. split; [exact Hid|]. split; [exact Hsu|].
  destruct (Hlater [alice]) as (_ & Hlogin).
  apply (Hlogin alice); [now left|discriminate].
Defined.

(** ** The forms, the account page and the product pages *)

Lemma element_present (x : string) (s : State) :
  existsb (String.eqb x) (document s) = true <-> In x (document s).
Proof.
  rewrite existsb_exists. split.
  - intros (y & Hy & Heq). apply String.eqb_eq in Heq. now subst.
  - intros H. exists x. split; [exact H|apply String.eqb_refl].
Qed.

Lemma element_absent (x : string) (s : State) :
  existsb (String.eqb x) (document s) = false <-> ~ In x (document s).
Proof.
  rewrite <- element_present. destruct (existsb _ _); split; congruence || tauto.
Qed.

(** X11: [logoutUser] always returns and leaves no session, also when the
    session text was not JSON (it is removed before the navigation reads
    it); the cart and the overlay are what they were, the navigation shows
    the logged-out links and the browser is sent to index.html. *)
Theorem logoutUser_always_clears (s : State) :
  exists s',
    logoutUser s = (Return tt, s') /\
    sessionStorage s' = None /\
    current_user s' = Return None /\
    localStorage s' = localStorage s /\
    sessionUsers s' = sessionUsers s /\
    trace s' = Location "index.html" :: Alert "You have been logged out."
                 :: UserNav false :: trace s.
Proof. destruct s. eexists. split; [reflexivity|]. repeat split. Qed.

Lemma fetchProductById_run (productId : JS.id_arg) (s : State) :
  fetchProductById productId s =
  match products_json s with
  | Some products =>
      (Return (find (fun p => JS.strict_eq (JS.Int (Product.id p)) (JS.parseInt productId))
                 products),
       set_trace (Fetch "data/products.json" :: trace s) s)
  | None =>
      (Return None,
       set_trace (ConsoleError "Could not fetch products:" :: Fetch "data/products.json"
                    :: trace s) s)
  end.
Proof.
  destruct s as [pj uj doc ls ss su tr].
  unfold fetchProductById, fetchProducts, console_error, emit, bind, gets, modify, ret.
  cbn -[JS.strict_eq JS.parseInt]. destruct pj; reflexivity.
Qed.

(** X12: [fetchProductById] never throws and writes no store.  What it finds
    is the first product of the fixture whose id is the number [parseInt]
    reads from the argument; it finds nothing when no product has that id,
    when the argument has no leading integer, and when the fixture fails to
    load, which it logs. *)
Theorem fetchProductById_finds_by_number (s : State) (productId : JS.id_arg) :
  exists found s',
    fetchProductById productId s = (Return found, s') /\ same_stores s s' /\
    (forall P, found = Some P ->
       JS.Int (Product.id P) = JS.parseInt productId /\
       exists pre post,
         products_json s = Some (pre ++ P :: post) /\
         forall x, In x pre -> JS.Int (Product.id x) <> JS.parseInt productId) /\
    (found = None <->
     forall products, products_json s = Some products ->
       forall x, In x products -> JS.Int (Product.id x) <> JS.parseInt productId) /\
    (JS.parseInt productId = JS.NaN -> found = None) /\
    (products_json s = None ->
     found = None /\ head (trace s') = Some (ConsoleError "Could not fetch products:")).
Proof.
  assert (Heq : forall x, JS.strict_eq (JS.Int (Product.id x)) (JS.parseInt productId) = true
                          <-> JS.Int (Product.id x) = JS.parseInt productId).
  { intros x. destruct (JS.parseInt productId); cbn; rewrite ?Z.eqb_eq; split;
      congruence || discriminate. }
  assert (Hfind : forall products,
            (forall P, find (fun p => JS.strict_eq (JS.Int (Product.id p)) (JS.parseInt productId))
                         products = Some P ->
                       exists pre post, products = pre ++ P :: post /\
                         forall x, In x pre -> JS.Int (Product.id x) <> JS.parseInt productId)).
  { induction products as [|x products IH]; cbn [find]; [discriminate|].
    destruct (JS.strict_eq (JS.Int (Product.id x)) (JS.parseInt productId)) eqn:E; intros P.
    - intros HP. injection HP as <-. exists [], products. split; [reflexivity|]. intros ? [].
    - intros H. destruct (IH P H) as (pre & post & -> & Hpre).
      exists (x :: pre), post. split; [reflexivity|].
      intros y [<-|Hy]; [|now apply Hpre].
      intros Hy. apply Heq in Hy. congruence. }
  rewrite fetchProductById_run. destruct (products_json s) as [products|].
  - eexists. eexists. split; [reflexivity|]. split; [apply same_stores_trace|].
    split; [|split; [|split]].
    + intros P [= HP]. split.
      * apply find_some in HP as [_ HP]. now apply Heq.
      * destruct (Hfind products P HP) as (pre & post & -> & Hpre). now exists pre, post.
    + split.
      * intros [= Hnone] ? [= <-] x Hx Hid. apply Heq in Hid.
        pose proof (find_none _ _ Hnone x Hx) as Hf.
        change (JS.strict_eq (JS.Int (Product.id x)) (JS.parseInt productId) = false) in Hf.
        congruence.
      * intros Hnone. f_equal.
        destruct (find _ products) as [P|] eqn:E; [|reflexivity]. exfalso.
        apply find_some in E as [Hin HP]. apply Heq in HP. now apply (Hnone products eq_refl P).
    + intros Hnan. f_equal. destruct (find _ products) as [P|] eqn:E; [|reflexivity]. exfalso.
      apply find_some in E as [_ HP]. rewrite Hnan in HP. discriminate.
    + discriminate.
  - eexists. eexists. split; [reflexivity|]. split; [apply same_stores_trace|].
    split; [discriminate|]. split; [|split; [reflexivity|now split]].
    split; [discriminate|reflexivity].
Qed.

Lemma displayAccountDetails_run (s : State) :
  displayAccountDetails s =
  match current_user s with
  | Return None => (Return None, set_trace (Location "login.html" :: trace s) s)
  | Return (Some u) =>
      (Return (if existsb (String.eqb "account-details") (document s)
               then Some (User.name u, User.email u,
                          if JS.falsy (User.address u) then "Not set" else User.address u)
               else None), s)
  | Throw e => (Throw e, s)
  end.
Proof.
  destruct s as [pj uj doc ls ss su tr].
  unfold displayAccountDetails, current_user, getCurrentUser, getElementById.
  destruct ss as [[u|raw]|]; [|destruct raw|]; cbn -[existsb]; try reflexivity.
  destruct (existsb _ doc); reflexivity.
Qed.

(** X13: [displayAccountDetails] sends the browser to login.html when there is
    no session and writes nothing; with a session it writes nothing but the
    user's name, email and address into #account-details, "Not set" for an
    empty address; a session text that is not empty and is not JSON makes it
    throw. *)
Theorem displayAccountDetails_cases (s : State) :
  (current_user s = Return None ->
   displayAccountDetails s
     = (Return None, set_trace (Location "login.html" :: trace s) s)) /\
  (forall u, current_user s = Return (Some u) -> In "account-details" (document s) ->
   displayAccountDetails s
     = (Return (Some (User.name u, User.email u,
                      if String.eqb (User.address u) "" then "Not set" else User.address u)),
        s)) /\
  (forall raw (not_JSON : JS.is_JSON raw = false),
     sessionStorage s = Some (JS.Raw raw not_JSON) -> raw <> "" ->
     displayAccountDetails s = (Throw JS.SyntaxError, s)).
Proof.
  rewrite displayAccountDetails_run. split; [|split].
  - now intros ->.
  - intros u -> Hin. apply element_present in Hin. rewrite Hin.
    now destruct (User.address u).
  - intros raw not_JSON Hraw Hne. unfold current_user, getCurrentUser, bind, gets. cbn.
    rewrite Hraw. destruct raw; [congruence|reflexivity].
Qed.

Lemma displayAccountDetails_cases_witness :
  displayAccountDetails (shop None)
    = (Return None, set_trace (Location "login.html" :: trace (shop None)) (shop None)) /\
  displayAccountDetails corrupt_session = (Throw JS.SyntaxError, corrupt_session).
Proof.
  split.
  - apply (displayAccountDetails_cases (shop None)). reflexivity.
  - apply (displayAccountDetails_cases corrupt_session) with "{not json" eq_refl;
      [reflexivity|discriminate].
Defined.

Lemma loginUser_run (email password : string) (s s1 : State) (users : list User.t) :
  fetchUsers s = (Return users, s1) ->
  loginUser email password s =
  match find (fun u => String.eqb (User.email u) email) users with
  | Some u =>
      if String.eqb (User.password u) password
      then (Return true,
            set_trace (UserNav true :: trace s1)
              (set_sessionStorage (Some (JS.JSON_stringify u)) s1))
      else (Return false, set_trace (Alert "Invalid email or password." :: trace s1) s1)
  | None => (Return false, set_trace (Alert "Invalid email or password." :: trace s1) s1)
  end.
Proof.
  intros Hs1. unfold loginUser. rewrite (bind_Return _ _ _ _ _ Hs1).
  destruct (find _ users) as [u|]; [destruct (String.eqb _ password)|]; reflexivity.
Qed.

(** X14: the login form sends the browser to account.html exactly when the
    login succeeds, and the account page loaded next shows the user who
    logged in; a failed login leaves the browser where it is, the one alert
    being the last event. *)
Theorem loginForm_submit_outcomes (s : State) (email password : string)
    (users : list User.t) :
  directory s = Return users ->
  (forall u elements,
     first_with_email email users u -> User.password u = password ->
     In "account-details" elements ->
     exists s',
       loginForm_submit email password s = (Return tt, s') /\
       head (trace s') = Some (Location "account.html") /\
       fst (displayAccountDetails (page_load elements s'))
         = Return (Some (User.name u, User.email u,
                         if String.eqb (User.address u) "" then "Not set"
                         else User.address u))) /\
  (fst (loginUser email password s) = Return false ->
   exists s',
     loginForm_submit email password s = (Return tt, s') /\
     head (trace s') = Some (Alert "Invalid email or password.") /\
     sessionStorage s' = sessionStorage s).
Proof.
  intros Hdir. destruct (directory_fetchUsers s users Hdir) as (s1 & Hs1 & Hf).
  pose proof (loginUser_run email password s s1 users Hs1) as Hlogin.
  unfold loginForm_submit, bind. split.
  - intros u elements Hu Hpw Hin. apply find_email_Some in Hu.
    rewrite Hlogin, Hu, (proj2 (String.eqb_eq _ _) Hpw).
    eexists. split; [reflexivity|]. split; [reflexivity|].
    rewrite displayAccountDetails_run.
    assert (Hpresent : existsb (String.eqb "account-details") elements = true).
    { apply existsb_exists. exists "account-details". split; [exact Hin|reflexivity]. }
    rewrite (current_user_written _ u) by reflexivity.
    cbn [document page_load fst]. rewrite Hpresent. now destruct (User.address u).
  - rewrite Hlogin.
    destruct (find _ users) as [u|]; [destruct (String.eqb _ password)|]; cbn [fst];
      try discriminate; intros _; (eexists; split; [reflexivity|]; split; [reflexivity|]);
      apply Hf.
Qed.

Lemma loginForm_submit_outcomes_witness :
  exists s',
    loginForm_submit "alice@example.com" "wonderland" (shop None) = (Return tt, s') /\
    head (trace s') = Some (Location "account.html") /\
    fst (displayAccountDetails (page_load ["account-details"] s'))
      = Return (Some ("Alice", "alice@example.com", "1 Main St")).
Proof.
  destruct (loginForm_submit_outcomes (shop None) "alice@example.com" "wonderland" [alice] eq_refl)
    as (Hsuccess & _).
  apply (Hsuccess alice ["account-details"]).
  - exists [], []. split; [reflexivity|]. split; [reflexivity|]. intros ? [].
  - reflexivity.
  - now left.
Defined.

(** X15: the registration form does nothing but alert when the two passwords
    differ: nothing is fetched, no user is added, no session is set.  When
    they agree it registers: a free email gives the new user, the session
    and the way to account.html; a taken one gives the alert of
    [registerUser] and no navigation. *)
Theorem registrationForm_submit_outcomes (s : State) (name email password confirmPassword : string)
    (users : list User.t) :
  directory s = Return users ->
  (password <> confirmPassword ->
   registrationForm_submit name email password confirmPassword s
     = (Return tt, set_trace (Alert "Passwords do not match." :: trace s) s)) /\
  (password = confirmPassword -> (forall u, In u users -> User.email u <> email) ->
   exists s',
     registrationForm_submit name email password confirmPassword s = (Return tt, s') /\
     head (trace s') = Some (Location "account.html") /\
     sessionUsers s' = users ++ [new_user users name email password] /\
     current_user s' = Return (Some (new_user users name email password))) /\
  (password = confirmPassword -> (exists u, In u users /\ User.email u = email) ->
   exists s',
     registrationForm_submit name email password confirmPassword s = (Return tt, s') /\
     head (trace s') = Some (Alert "Email already exists. Please use a different email.") /\
     sessionStorage s' = sessionStorage s /\ directory s' = Return users).
Proof.
  intros Hdir. unfold registrationForm_submit. split; [|split].
  - intros Hne. now rewrite (proj2 (String.eqb_neq _ _) Hne).
  - intros <- Hfresh. rewrite String.eqb_refl. cbn [negb].
    apply find_email_None in Hfresh.
    destruct (registerUser_success_run name email password s users Hdir Hfresh)
      as (s' & Hrun & Hsu & Hss & _).
    rewrite (bind_Return _ _ _ _ _ Hrun).
    eexists. split; [reflexivity|]. split; [reflexivity|]. split; [exact Hsu|].
    now apply current_user_written.
  - intros <- (u & Hin & Hemail). rewrite String.eqb_refl. cbn [negb].
    destruct (find (fun u => String.eqb (User.email u) email) users) as [v|] eqn:Hfind.
    + destruct (registerUser_duplicate_run name email password s users v Hdir Hfind)
        as (s1 & Hs1 & Hf & Hrun).
      rewrite (bind_Return _ _ _ _ _ Hrun).
      eexists. split; [reflexivity|]. split; [reflexivity|]. split; [apply Hf|].
      assert (Hsu : sessionUsers s1 = users) by apply Hf.
      unfold directory. rewrite fetchUsers_loaded; cbn; rewrite Hsu; [reflexivity|].
      intros ->. destruct Hin.
    + exfalso. now apply (proj1 (find_email_None email users) Hfind u).
Qed.

Lemma registrationForm_submit_outcomes_witness :
  registrationForm_submit "Bob" "bob@example.com" "builder" "Builder" (shop None)
    = (Return tt, set_trace (Alert "Passwords do not match." :: trace (shop None)) (shop None)) /\
  exists s',
    registrationForm_submit "Bob" "bob@example.com" "builder" "builder" (shop None)
      = (Return tt, s') /\
    head (trace s') = Some (Location "account.html") /\
    sessionUsers s' = [alice] ++ [new_user [alice] "Bob" "bob@example.com" "builder"] /\
    current_user s' = Return (Some (new_user [alice] "Bob" "bob@example.com" "builder")).
Proof.
  split.
  - apply (registrationForm_submit_outcomes (shop None) "Bob" "bob@example.com" "builder" "Builder"
             [alice] eq_refl). discriminate.
  - apply (registrationForm_submit_outcomes (shop None) "Bob" "bob@example.com" "builder" "builder"
             [alice] eq_refl); [reflexivity|].
    intros u [<-|[]]. discriminate.
Defined.


Lemma displayProductsOnPage_run (s : State) :
  displayProductsOnPage s =
  if existsb (String.eqb "product-listing-container") (document s)
  then
    match products_json s with
    | Some [] => (Return (Some NoProductsFound),
                  set_trace (Fetch "data/products.json" :: trace s) s)
    | Some products =>
        (Return (Some (ProductCards
                         (map (fun product => (product, Number_toString (Product.id product)))
                              products))),
         set_trace (Fetch "data/products.json" :: trace s) s)
    | None => (Return (Some NoProductsFound),
               set_trace (ConsoleError "Could not fetch products:"
                            :: Fetch "data/products.json" :: trace s) s)
    end
  else (Return None, s).
Proof.
  destruct s as [pj uj doc ls ss su tr].
  unfold displayProductsOnPage, getElementById, fetchProducts.
  cbn -[existsb Number_toString].
  destruct (existsb _ doc); [|reflexivity].
  destruct pj as [[|p products]|]; reflexivity.
Qed.

Lemma displayProductDetailsOnPage_run (productId : option string) (s : State) :
  displayProductDetailsOnPage productId s =
  if existsb (String.eqb "product-detail-container") (document s)
  then
    match productId with
    | None => (Return (Some NoProductIdSpecified), s)
    | Some text =>
        if JS.falsy text then (Return (Some NoProductIdSpecified), s)
        else
          match fetchProductById (JS.IdString text) s with
          | (Return (Some product), s') => (Return (Some (ProductDetails product)), s')
          | (Return None, s') => (Return (Some ProductNotFoundText), s')
          | (Throw e, s') => (Throw e, s')
          end
    end
  else (Return None, s).
Proof.
  unfold displayProductDetailsOnPage, getElementById, bind at 1, gets.
  destruct (existsb _ (document s)); [|reflexivity]. cbn [negb].
  destruct productId as [text|]; [|reflexivity].
  destruct (JS.falsy text); [reflexivity|]. unfold bind.
  destruct (fetchProductById (JS.IdString text) s) as [[[product|]|e] s']; reflexivity.
Qed.




(** X17: the product pages without a product.  The listing writes nothing and
    fetches nothing without its container, and "No products found." for an
    empty fixture as for one that fails to load.  The details page writes
    "No product ID specified." for a URL with no id or an empty one, without
    fetching, and "Product not found." when no product has the number read
    from the id. *)
Theorem product_pages_without_product (s : State) :
  (~ In "product-listing-container" (document s) ->
   displayProductsOnPage s = (Return None, s)) /\
  (In "product-listing-container" (document s) ->
   products_json s = None \/ products_json s = Some [] ->
   fst (displayProductsOnPage s) = Return (Some NoProductsFound)) /\
  (In "product-detail-container" (document s) ->
   displayProductDetailsOnPage None s = (Return (Some NoProductIdSpecified), s) /\
   displayProductDetailsOnPage (Some "") s = (Return (Some NoProductIdSpecified), s)) /\
  (In "product-detail-container" (document s) ->
   forall text, text <> "" ->
     (forall products, products_json s = Some products ->
        forall x, In x products -> JS.Int (Product.id x) <> JS.parseInt_string text) ->
     fst (displayProductDetailsOnPage (Some text) s) = Return (Some ProductNotFoundText)).
Proof.
  split; [|split; [|split]].
  - intros Habsent. apply element_absent in Habsent.
    now rewrite displayProductsOnPage_run, Habsent.
  - intros Hpresent Hjson. apply element_present in Hpresent.
    rewrite displayProductsOnPage_run, Hpresent. now destruct Hjson as [-> | ->].
  - intros Hpresent. apply element_present in Hpresent.
    rewrite !displayProductDetailsOnPage_run, Hpresent. now split.
  - intros Hpresent text Htext Hnone. apply element_present in Hpresent.
    rewrite displayProductDetailsOnPage_run, Hpresent, (falsy_false text Htext).
    rewrite fetchProductById_run. destruct (products_json s) as [products|]; [|reflexivity].
    destruct (find _ products) as [P|] eqn:E; [|reflexivity]. exfalso.
    apply find_some in E as [Hin HP]. apply (Hnone products eq_refl P Hin).
    cbn [JS.parseInt] in HP. destruct (JS.parseInt_string text); cbn in HP; try discriminate.
    apply Z.eqb_eq in HP. now rewrite HP.
Qed.

Lemma product_pages_without_product_witness :
  fst (displayProductsOnPage
         (page_load ["product-listing-container"] (loaded None None None None)))
    = Return (Some NoProductsFound) /\
  fst (displayProductDetailsOnPage (Some "abc")
         (page_load ["product-detail-container"] (shop None)))
    = Return (Some ProductNotFoundText).
Proof.
  split.
  - apply (product_pages_without_product
             (page_load ["product-listing-container"] (loaded None None None None)));
      [now left|now left].
  - apply (product_pages_without_product (page_load ["product-detail-container"] (shop None)));
      [now left|discriminate|].
    intros products [= <-] x [<-|[]]. discriminate.
Defined.

(** ** The cart invariant and the cart page *)

(** X18: a stored cart with one line per product and size and only positive
    integer quantities stays such a cart under [addToCart] with an integer
    quantity q, when q and every sum of a stored quantity and q are below
    2^53 in magnitude, under [removeFromCart] with any arguments, and under
    [updateCartQuantity] with a new quantity that is an integer or is not
    greater than 0, as NaN is not; each of them returns. *)
Theorem cart_invariant_is_kept (s : State) (cart : Cart) :
  persisted_cart s = Return cart -> cart_invariant cart ->
  (forall productId q size,
     safe_integer q ->
     (forall item n, In item cart -> CartLine.quantity item = JS.Int n -> safe_integer (n + q)) ->
     exists s' cart',
       addToCart productId (JS.Int q) size s = (Return tt, s') /\
       persisted_cart s' = Return cart' /\ cart_invariant cart') /\
  (forall productId size, exists s' cart',
     removeFromCart productId size s = (Return tt, s') /\
     persisted_cart s' = Return cart' /\ cart_invariant cart') /\
  (forall productId size newQuantity,
     (exists n, newQuantity = JS.Int n) \/ JS.gt newQuantity (JS.Int 0) = false ->
     exists s' cart',
       updateCartQuantity productId size newQuantity s = (Return tt, s') /\
       persisted_cart s' = Return cart' /\ cart_invariant cart').
Proof.
  intros H Hinv. split; [|split].
  - intros productId q size _ Hsafe. now apply addToCart_keeps_invariant with cart.
  - intros productId size. now apply removeFromCart_keeps_invariant with cart.
  - intros productId size newQuantity Hnew.
    now apply updateCartQuantity_keeps_invariant with cart.
Qed.

Lemma cart_invariant_is_kept_witness :
  (exists s' cart',
     addToCart (JS.IdNumber 42) (JS.Int 3) "M"
       (shop (Some (JS.JSON_stringify [snapshot tee (JS.Int 2) "M"; snapshot tee (JS.Int 1) "S"])))
       = (Return tt, s') /\
     persisted_cart s' = Return cart' /\ cart_invariant cart') /\
  (exists s' cart',
     updateCartQuantity (JS.IdString "42") "M" JS.NaN
       (shop (Some (JS.JSON_stringify [snapshot tee (JS.Int 2) "M"; snapshot tee (JS.Int 1) "S"])))
       = (Return tt, s') /\
     persisted_cart s' = Return cart' /\ cart_invariant cart').
Proof.
  destruct (cart_invariant_is_kept
           (shop (Some (JS.JSON_stringify [snapshot tee (JS.Int 2) "M"; snapshot tee (JS.Int 1) "S"])))
           [snapshot tee (JS.Int 2) "M"; snapshot tee (JS.Int 1) "S"]) as (Hadd & _ & Hupdate).
  - reflexivity.
  - split.
    + unfold unique_lines. cbn. apply NoDup_cons. split; [|apply NoDup_singleton].
      intros Hin. apply list_elem_of_singleton in Hin. discriminate Hin.
    + repeat constructor; eexists; (split; [reflexivity|lia]).
  - split.
    + apply Hadd.
      * unfold safe_integer. cbn. lia.
      * intros item n [<-|[<-|[]]] [= <-]; unfold safe_integer; cbn; lia.
    + apply Hupdate. now right.
Defined.




